(** * xESMF frontend: a shallow embedding of [xesmf/frontend.py]

    The regridder of xESMF builds (or reuses) a file of sparse interpolation
    weights, loads it into memory and applies it to arrays whose two trailing
    axes are the horizontal grid.  This development embeds the frontend in
    Rocq: numpy arrays are a shape together with row-major data, Python
    dictionaries are finite maps, and the effects of the frontend (the file
    system, the messages printed, the calls into the ESMF backend) are threaded
    through a state-and-exception monad. *)

From Stdlib Require Import DecimalString DecimalNat.
From stdpp Require Import gmap strings list fin_maps.

Open Scope string_scope.

(** ** Exceptions

    The exceptions the frontend raises or lets through.  The source states
    its shape precondition with [assert]: what the specification calls a
    [ShapeError] on input data is Python's [AssertionError].  [FormatError]
    is the specification's name for a corrupt weight file. *)

Inductive exn : Type :=
  | AssertionError
  | ValueError
  | KeyError
  | TypeError
  | IOError
  | FormatError
  | NotImplementedError.

Inductive result (A : Type) : Type :=
  | Ok (a : A)
  | Raise (e : exn).
Arguments Ok {A} a.
Arguments Raise {A} e.

(** ** Effects

    A computation reads and updates a state and either returns a value or
    raises; the state reached when an exception is raised is kept, as a file
    removed before a failure stays removed. *)

Definition M (S A : Type) : Type := S -> result A * S.

Definition ret {S A} (a : A) : M S A := fun s => (Ok a, s).

Definition raise {S A} (e : exn) : M S A := fun s => (Raise e, s).

Definition bind {S A B} (c : M S A) (k : A -> M S B) : M S B :=
  fun s =>
    match c s with
    | (Ok a, s') => k a s'
    | (Raise e, s') => (Raise e, s')
    end.

Definition lift {S A} (r : result A) : M S A := fun s => (r, s).

Notation "x <- c1 ;; c2" := (bind c1 (fun x => c2))
  (at level 100, c1 at next level, right associativity).
Notation "c1 ;; c2" := (bind c1 (fun _ => c2))
  (at level 100, right associativity).

(** ** Slices of tuples and lists

    [l[-2:]] and [l[0:-2]] as Python evaluates them on a tuple: a negative
    bound is counted from the end and clipped at the start. *)

Definition slice_last2 {A} (l : list A) : list A := drop (length l - 2) l.
Definition slice_but_last2 {A} (l : list A) : list A := take (length l - 2) l.

(** [str(n)] for a non-negative integer. *)
Definition str_of_nat (n : nat) : string :=
  NilEmpty.string_of_uint (Nat.to_uint n).

(** The line feed of ['\n']. *)
Definition nl : string := String (Ascii.ascii_of_nat 10) "".

(** The characters ['0'] to ['9'], and the strings made of them. *)
Definition is_digit (c : Ascii.ascii) : bool :=
  Nat.leb 48 (Ascii.nat_of_ascii c) && Nat.leb (Ascii.nat_of_ascii c) 57.

Fixpoint all_digits (s : string) : bool :=
  match s with
  | EmptyString => true
  | String c rest => is_digit c && all_digits rest
  end.

(** ** numpy arrays

    An array is its shape and its elements in C (row-major) order.  The
    element type is a parameter of the development: the frontend never
    inspects an element, it only moves them and hands them to the sparse
    product. *)

Class Scalar : Type := {
  V : Type;
  vzero : V;
  vadd : V -> V -> V;
  vmul : V -> V -> V
}.

Section Frontend.

Context {scalar : Scalar}.

Record ndarray : Type := NdArray {
  shape : list nat;
  data : list V
}.

Definition ndim (a : ndarray) : nat := length (shape a).

Definition prod_list (l : list nat) : nat := foldr Nat.mul 1 l.

(** [a.size] *)
Definition size (a : ndarray) : nat := prod_list (shape a).

(** A well-formed array holds exactly [size] elements. *)
Definition wf_ndarray (a : ndarray) : Prop := length (data a) = size a.

(** Multi-index of a flat position, and back (row-major). *)
Fixpoint unravel (shp : list nat) (k : nat) : list nat :=
  match shp with
  | [] => []
  | _ :: rest => (k / prod_list rest) :: unravel rest (k mod prod_list rest)
  end.

Fixpoint ravel (shp idx : list nat) : nat :=
  match shp, idx with
  | _ :: rest, i :: idx' => i * prod_list rest + ravel rest idx'
  | _, _ => 0
  end.

(** [a.T]: all axes reversed. *)
Definition transpose (a : ndarray) : ndarray :=
  let tshape := rev (shape a) in
  NdArray tshape
    (map (fun k => nth (ravel (shape a) (rev (unravel tshape k))) (data a) vzero)
         (seq 0 (prod_list tshape))).

(** [np.meshgrid(lon, lat)] on two 1D arrays (default ['xy'] indexing): both
    results have shape [(len(lat), len(lon))]; the first repeats [lon] along
    every row, the second repeats each element of [lat] along its row. *)
Definition meshgrid (lon lat : ndarray) : ndarray * ndarray :=
  let ny := length (data lat) in
  let nx := length (data lon) in
  (NdArray [ny; nx] (concat (replicate ny (data lon))),
   NdArray [ny; nx] (flat_map (fun y => replicate nx y) (data lat))).

(** ** [as_2d_mesh] *)

Definition as_2d_mesh (lon lat : ndarray) : result (ndarray * ndarray) :=
  if decide ((ndim lon, ndim lat) = (2, 2)) then Ok (lon, lat)
  else if decide ((ndim lon, ndim lat) = (1, 1)) then Ok (meshgrid lon lat)
  else Raise ValueError.

(** ** Sparse matrices and weight files

    A sparse matrix in coordinate form: its shape and its 0-based triplets
    [(row, column, weight)].  A weight file holds the triplets. *)

Definition triplet : Type := nat * nat * V.

Record spmatrix : Type := SpMatrix {
  nrows : nat;
  ncols : nat;
  entries : list triplet
}.

(** Row [i] of [A · x]. *)
Definition dot_row (A : spmatrix) (x : list V) (i : nat) : V :=
  foldr (fun (t : triplet) acc =>
           let '(r, c, w) := t in
           if decide (r = i) then vadd (vmul w (nth c x vzero)) acc else acc)
        vzero (entries A).

Definition spmv (A : spmatrix) (x : list V) : list V :=
  map (dot_row A x) (seq 0 (nrows A)).

(** ** The world: files, messages and backend calls *)

Record Grid : Type := MkGrid {
  g_lon : ndarray;
  g_lat : ndarray;
  g_periodic : option bool;
  g_corners : option (ndarray * ndarray)
}.

Inductive ESMFRegrid : Type :=
  | MkRegrid (grid_in grid_out : Grid) (method : string).

Inductive event : Type :=
  | Print (msg : string)
  | OsRemove (path : string)
  | EsmfGrid (lon lat : ndarray) (periodic : option bool)
  | AddCorner (lon_b lat_b : ndarray)
  | EsmfRegridBuild (grid_in grid_out : Grid) (method filename : string)
  | EsmfRegridFinalize
  | ReadWeights (filename : string) (n_in n_out : nat)
  | ApplyWeights (indata_shape : list nat).

Record world : Type := World {
  files : gmap string (list triplet);
  log : list event
}.

Definition emit (e : event) : M world unit :=
  fun w => (Ok tt, World (files w) (log w ++ [e])).

(** [print(msg)] *)
Definition print (msg : string) : M world unit := emit (Print msg).

(** [os.path.exists(path)] *)
Definition os_path_exists (path : string) : M world bool :=
  fun w => (Ok (bool_decide (is_Some (files w !! path))), w).

(** [os.remove(path)] *)
Definition os_remove (path : string) : M world unit :=
  fun w =>
    match files w !! path with
    | Some _ => (Ok tt, World (delete path (files w)) (log w ++ [OsRemove path]))
    | None => (Raise IOError, w)
    end.

(** ** The backend ([backend.py], [smm.py]) *)

(** What the geometric engine computes for two grids and a method. *)
Class Engine : Type := {
  compute_weights : Grid -> Grid -> string -> list triplet
}.

Context {engine : Engine}.

(** Modelled from the spec: [esmf_grid] of [backend.py] is missing; it is
    the engine's [build_grid(lon, lat, periodic) -> GridHandle], which turns
    the coordinate arrays it is given into a grid handle. *)
Definition esmf_grid (lon lat : ndarray) (periodic : option bool) : M world Grid :=
  emit (EsmfGrid lon lat periodic) ;;
  ret (MkGrid lon lat periodic None).

(** Modelled from the spec: [add_corner] of [backend.py] is missing; it is
    the engine's [add_bounds(grid, lon_corners, lat_corners)].  The grid is
    updated in place, which is rendered by returning the updated handle. *)
Definition add_corner (grid : Grid) (lon_b lat_b : ndarray) : M world Grid :=
  emit (AddCorner lon_b lat_b) ;;
  ret (MkGrid (g_lon grid) (g_lat grid) (g_periodic grid) (Some (lon_b, lat_b))).

(** Modelled from the spec: [esmf_regrid_build] of [backend.py] is missing;
    it is the engine's [compute_and_persist_weights(grid_in, grid_out,
    method, path)], which writes the sparse triplet file as a side effect. *)
Definition esmf_regrid_build (grid_in grid_out : Grid) (method filename : string)
  : M world ESMFRegrid :=
  fun w =>
    (Ok (MkRegrid grid_in grid_out method),
     World (<[filename := compute_weights grid_in grid_out method]> (files w))
           (log w ++ [EsmfRegridBuild grid_in grid_out method filename])).

(** Modelled from the spec: [esmf_regrid_finalize] of [backend.py] is
    missing; the in-process regrid handle is discarded after persistence. *)
Definition esmf_regrid_finalize (regrid : ESMFRegrid) : M world unit :=
  emit EsmfRegridFinalize.

(** A triplet addresses a cell of an [n_out] by [n_in] matrix. *)
Definition in_range (n_in n_out : nat) (t : triplet) : bool :=
  let '(r, c, _) := t in bool_decide (r < n_out) && bool_decide (c < n_in).

(** Modelled from the spec: [read_weights] of [smm.py] is missing; it is
    [load(path, n_in, n_out) -> SparseMatrix[n_out, n_in]], which reads the
    persisted triplets into a sparse matrix of the declared shape and treats
    an index outside [[0, n_out)] or [[0, n_in)] as corruption
    ([FormatError]). *)
Definition read_weights (filename : string) (n_in n_out : nat) : M world spmatrix :=
  emit (ReadWeights filename n_in n_out) ;;
  fun w =>
    match files w !! filename with
    | None => (Raise IOError, w)
    | Some ts =>
        if forallb (in_range n_in n_out) ts
        then (Ok (SpMatrix n_out n_in ts), w)
        else (Raise FormatError, w)
    end.

(** Row [b] of a flat array seen as rows of length [n_in]. *)
Definition batch_row (n_in : nat) (xs : list V) (b : nat) : list V :=
  take n_in (drop (b * n_in) xs).

(** [a.reshape(new_shape)]: the elements are kept, the total size must agree. *)
Definition reshape (new_shape : list nat) (xs : list V) : result ndarray :=
  if decide (length xs = prod_list new_shape)
  then Ok (NdArray new_shape xs)
  else Raise ValueError.

(** Modelled from the spec: [apply_weights] of [smm.py] is missing; it is
    [apply(matrix, input_array, Ny_out, Nx_out)]: the trailing two axes are
    flattened into one of length [N_in] (the matrix's column count, checked
    as an assertion-style precondition), the leading axes into one of length
    [B]; the [(B, N_in)] array is multiplied by the transposed matrix and
    the [(B, N_out)] product reshaped to [leading_shape + (Ny_out, Nx_out)]. *)
Definition apply_weights (A : spmatrix) (indata : ndarray) (Ny_out Nx_out : nat)
  : M world ndarray :=
  emit (ApplyWeights (shape indata)) ;;
  let shape_horiz := slice_last2 (shape indata) in
  let extra_shape := slice_but_last2 (shape indata) in
  if decide (length shape_horiz = 2 /\ prod_list shape_horiz = ncols A) then
    let B := prod_list extra_shape in
    let indata_flat := map (batch_row (ncols A) (data indata)) (seq 0 B) in
    let outdata_flat := map (spmv A) indata_flat in
    lift (reshape (extra_shape ++ [Ny_out; Nx_out]) (concat outdata_flat))
  else raise AssertionError.

(** ** Grid specifications

    [ds] is an xarray DataSet or a dictionary: a map from variable names to
    arrays.  [ds[key]] raises [KeyError] on a missing key. *)

Definition ds_getitem (ds : gmap string ndarray) (key : string) : result ndarray :=
  match ds !! key with
  | Some a => Ok a
  | None => Raise KeyError
  end.

Definition ds_to_ESMFgrid (ds : gmap string ndarray) (need_bounds : bool)
    (periodic : option bool) : M world Grid :=
  lon <- lift (ds_getitem ds "lon") ;;
  lat <- lift (ds_getitem ds "lat") ;;
  grid <- esmf_grid (transpose lon) (transpose lat) periodic ;;
  if need_bounds then
    lon_b <- lift (ds_getitem ds "lon_b") ;;
    lat_b <- lift (ds_getitem ds "lat_b") ;;
    add_corner grid (transpose lon_b) (transpose lat_b)
  else ret grid.

(** ** The regridder *)

Record Regridder : Type := MkRegridder {
  _lon_out : ndarray;
  _lat_out : ndarray;
  need_bounds : bool;
  method : string;
  periodic : bool;
  reuse_weights : bool;
  _grid_in : Grid;
  _grid_out : Grid;
  Ny_in : nat;
  Nx_in : nat;
  Ny_out : nat;
  Nx_out : nat;
  N_in : nat;
  N_out : nat;
  filename : string;
  A : spmatrix
}.

(** [self.filename = f] and [self.A = m]. *)
Definition set_filename (self : Regridder) (f : string) : Regridder :=
  MkRegridder (_lon_out self) (_lat_out self) (need_bounds self) (method self)
    (periodic self) (reuse_weights self) (_grid_in self) (_grid_out self)
    (Ny_in self) (Nx_in self) (Ny_out self) (Nx_out self) (N_in self)
    (N_out self) f (A self).

Definition set_A (self : Regridder) (m : spmatrix) : Regridder :=
  MkRegridder (_lon_out self) (_lat_out self) (need_bounds self) (method self)
    (periodic self) (reuse_weights self) (_grid_in self) (_grid_out self)
    (Ny_in self) (Nx_in self) (Ny_out self) (Nx_out self) (N_in self)
    (N_out self) (filename self) m.

(** [a, b = t]: the tuple must hold exactly two values. *)
Definition unpack2 (t : list nat) : result (nat * nat) :=
  match t with
  | [a; b] => Ok (a, b)
  | _ => Raise ValueError
  end.

Definition _get_default_filename (self : Regridder) : string :=
  let filename :=
    method self ++ "_" ++ str_of_nat (Ny_in self) ++ "x" ++ str_of_nat (Nx_in self)
      ++ "_" ++ str_of_nat (Ny_out self) ++ "x" ++ str_of_nat (Nx_out self) in
  if periodic self then filename ++ "_peri.nc" else filename ++ ".nc".

Definition _write_weight_file (self : Regridder) : M world unit :=
  let build : M world unit :=
    regrid <- esmf_regrid_build (_grid_in self) (_grid_out self) (method self)
                (filename self) ;;
    esmf_regrid_finalize regrid in
  file_exists <- os_path_exists (filename self) ;;
  if (file_exists : bool) then
    if reuse_weights self then
      print ("Reuse existing file: " ++ filename self)
    else
      print ("Overwrite existing file: " ++ filename self ++ " " ++ nl ++ " "
             ++ "You can set reuse_weights=True to save computing time.") ;;
      os_remove (filename self) ;;
      build
  else
    print ("Create weight file: " ++ filename self) ;;
    build.

Definition __init__ (ds_in ds_out : gmap string ndarray) (method : string)
    (periodic : bool) (filename_arg : option string) (reuse_weights : bool)
  : M world Regridder :=
  _lon_out <- lift (ds_getitem ds_out "lon") ;;
  _lat_out <- lift (ds_getitem ds_out "lat") ;;
  let '(need_bounds, periodic) :=
    if decide (method = "conservative") then (true, false) else (false, periodic) in
  _grid_in <- ds_to_ESMFgrid ds_in need_bounds (Some periodic) ;;
  _grid_out <- ds_to_ESMFgrid ds_out need_bounds None ;;
  lon_in <- lift (ds_getitem ds_in "lon") ;;
  shape_in <- lift (unpack2 (shape lon_in)) ;;
  shape_out <- lift (unpack2 (shape _lon_out)) ;;
  let self :=
    MkRegridder _lon_out _lat_out need_bounds method periodic reuse_weights
      _grid_in _grid_out (fst shape_in) (snd shape_in) (fst shape_out)
      (snd shape_out) (size lon_in) (size _lon_out) "" (SpMatrix 0 0 []) in
  let self :=
    match filename_arg with
    | None => set_filename self (_get_default_filename self)
    | Some f => set_filename self f
    end in
  _write_weight_file self ;;
  m <- read_weights (filename self) (N_in self) (N_out self) ;;
  ret (set_A self m).

Definition clean_weight_file (self : Regridder) : M world unit :=
  file_exists <- os_path_exists (filename self) ;;
  if (file_exists : bool) then
    print ("Remove file " ++ filename self) ;;
    os_remove (filename self) ;;
    print ("You can still use the regridder because the weights "
           ++ "are already read into memory.")
  else
    print ("File " ++ filename self ++ " is already removed.").

Definition regrid_numpy (self : Regridder) (indata : ndarray) : M world ndarray :=
  let shape_horiz := slice_last2 (shape indata) in
  if decide (shape_horiz = [Ny_in self; Nx_in self]) then
    apply_weights (A self) indata (Ny_out self) (Nx_out self)
  else raise AssertionError.

(** ** Labelled arrays

    An xarray DataArray as the frontend uses it: the raw values, the
    dimension names, the variable name, the coordinates keyed by name and the
    attributes.  xarray stores a coordinate as a variable: its dimension
    names and its values. *)

(** The values of a coordinate variable: an array, or the default integer
    index [0, ..., n-1] that xarray gives a dimension that has no stored
    coordinate. *)
Inductive coord_values : Type :=
  | CoordArray (a : ndarray)
  | RangeIndex (n : nat).

Definition coord_shape (v : coord_values) : list nat :=
  match v with
  | CoordArray a => shape a
  | RangeIndex n => [n]
  end.

Record CoordVar : Type := MkCoordVar {
  c_dims : list string;
  c_values : coord_values
}.

Record DataArray : Type := MkDataArray {
  values : ndarray;
  dims : list string;
  name : option string;
  coords : gmap string CoordVar;
  attrs : gmap string string
}.

(** A DataArray that stands for a coordinate, as [dr.coords[key]] returns
    it and as the right-hand side of [dr.coords[key] = value] is read: the
    variable it holds and the coordinates it carries itself. *)
Record Coordinate : Type := MkCoordinate {
  co_var : CoordVar;
  co_coords : gmap string CoordVar
}.

(** [dict(zip(dims, shape)).get(d)]: the size of dimension [d]; of two
    dimensions of one name the later counts. *)
Fixpoint dim_size_in (ds : list string) (ss : list nat) (d : string) : option nat :=
  match ds, ss with
  | d' :: ds', n :: ss' =>
      match dim_size_in ds' ss' d with
      | Some m => Some m
      | None => if decide (d' = d) then Some n else None
      end
  | _, _ => None
  end.

Definition dim_size (dr : DataArray) (d : string) : option nat :=
  dim_size_in (dims dr) (shape (values dr)) d.

(** [xr.DataArray(data, dims=dims, name=name)]: there must be as many
    dimension names as the data has axes. *)
Definition xr_DataArray (data : ndarray) (dims : list string) (name : option string)
  : result DataArray :=
  if decide (length dims = ndim data) then Ok (MkDataArray data dims name ∅ ∅)
  else Raise ValueError.

(** A DataArray read as the value of a coordinate assignment. *)
Definition as_coordinate (da : DataArray) : Coordinate :=
  MkCoordinate (MkCoordVar (dims da) (CoordArray (values da))) (coords da).

(** All dimensions of a variable are among [allowed]. *)
Definition dims_within (allowed : list string) (v : CoordVar) : bool :=
  forallb (fun d => bool_decide (d ∈ allowed)) (c_dims v).

(** The coordinates of [dr] that a view on the variable [var] keeps: all of
    them when [var] spans the dimensions of [dr], otherwise those whose
    dimensions are among the dimensions of [var] (scalar coordinates
    included). *)
Definition carried_coords (dr : DataArray) (var : CoordVar) : gmap string CoordVar :=
  if decide (c_dims var = dims dr) then coords dr
  else filter (fun kv => dims_within (c_dims var) kv.2 = true) (coords dr).

(** [dr.coords[key]]: the stored coordinate; for a dimension without a
    stored coordinate, its default integer index; [KeyError] otherwise.  The
    result carries the coordinates of [dr] that lie within its dimensions. *)
Definition coords_getitem (dr : DataArray) (key : string) : result Coordinate :=
  match coords dr !! key with
  | Some var => Ok (MkCoordinate var (carried_coords dr var))
  | None =>
      match dim_size dr key with
      | Some n =>
          let var := MkCoordVar [key] (RangeIndex n) in
          Ok (MkCoordinate var (carried_coords dr var))
      | None => Raise KeyError
      end
  end.

(** A coordinate variable fits [dr]: each of its dimensions is a dimension
    of [dr], of the size the variable has along it. *)
Definition var_fits (dr : DataArray) (var : CoordVar) : bool :=
  bool_decide (map (dim_size dr) (c_dims var)
               = map Some (coord_shape (c_values var))).

(** The coordinates after [coords[key] = value]: [value] under [key] and
    the coordinates [value] carries take precedence over those present. *)
Definition merge_coords (old : gmap string CoordVar) (key : string)
    (value : Coordinate) : gmap string CoordVar :=
  <[key := co_var value]> (delete key (co_coords value) ∪ old).

(** [dr.coords[key] = value].  xarray refuses ([MissingDimensionsError], a
    [ValueError]) a variable of more than one dimension that has the name of
    one of its own dimensions, and ([ValueError]) coordinates with
    dimensions that [dr] lacks or of conflicting sizes. *)
Definition coords_setitem (dr : DataArray) (key : string) (value : Coordinate)
  : result DataArray :=
  let var := co_var value in
  if decide (key ∈ c_dims var /\ length (c_dims var) <> 1) then Raise ValueError
  else
    let merged := merge_coords (coords dr) key value in
    if decide (map_Forall (fun _ v => var_fits dr v = true) merged)
    then Ok (MkDataArray (values dr) (dims dr) (name dr) merged (attrs dr))
    else Raise ValueError.

(** [dr.attrs[key] = v] *)
Definition attrs_setitem (dr : DataArray) (key v : string) : DataArray :=
  MkDataArray (values dr) (dims dr) (name dr) (coords dr) (<[key := v]> (attrs dr)).

(** [for x in xs: acc = body(acc, x)] *)
Fixpoint for_each {S X B} (xs : list X) (body : B -> X -> M S B) (acc : B) : M S B :=
  match xs with
  | [] => ret acc
  | x :: rest => acc' <- body acc x ;; for_each rest body acc'
  end.

Definition regrid_dataarray (self : Regridder) (dr_in : DataArray) : M world DataArray :=
  outdata <- regrid_numpy self (values dr_in) ;;
  let dim_names := dims dr_in in
  let horiz_dims := slice_last2 dim_names in
  let extra_dims := slice_but_last2 dim_names in
  let varname := name dr_in in
  dr_out <- lift (xr_DataArray outdata dim_names varname) ;;
  lon <- lift (xr_DataArray (_lon_out self) horiz_dims None) ;;
  dr_out <- lift (coords_setitem dr_out "lon" (as_coordinate lon)) ;;
  lat <- lift (xr_DataArray (_lat_out self) horiz_dims None) ;;
  dr_out <- lift (coords_setitem dr_out "lat" (as_coordinate lat)) ;;
  dr_out <- for_each extra_dims
              (fun dr_out dim =>
                 c <- lift (coords_getitem dr_in dim) ;;
                 lift (coords_setitem dr_out dim c))
              dr_out ;;
  ret (attrs_setitem dr_out "regrid_method" (method self)).

Definition regrid_dataset (self : Regridder) (ds_in : gmap string DataArray)
  : M world (gmap string DataArray) :=
  raise NotImplementedError.

(** ** Dispatch on the input representation

    The values [__call__] can be given: a numpy array, a DataArray, or an
    object of any other class (known here by the name of its class). *)

Inductive pyobject : Type :=
  | PyNdarray (a : ndarray)
  | PyDataArray (dr : DataArray)
  | PyOther (class_name : string).

Definition __call__ (self : Regridder) (a : pyobject) : M world pyobject :=
  match a with
  | PyNdarray indata => outdata <- regrid_numpy self indata ;; ret (PyNdarray outdata)
  | PyDataArray dr_in => dr_out <- regrid_dataarray self dr_in ;; ret (PyDataArray dr_out)
  | PyOther _ => raise TypeError
  end.

(** ** The invariant of a constructed regridder *)

Definition wf_regridder (self : Regridder) : Prop :=
  N_in self = Ny_in self * Nx_in self /\
  N_out self = Ny_out self * Nx_out self /\
  nrows (A self) = N_out self /\
  ncols (A self) = N_in self.

(** ** The invariant of a DataArray, and what the metadata steps leave *)


(** The two coordinates [regrid_dataarray] attaches from the output grid,
    over the dimension names [horiz]. *)
Definition grid_coords (self : Regridder) (horiz : list string)
  : gmap string CoordVar :=
  <["lat" := MkCoordVar horiz (CoordArray (_lat_out self))]>
    (<["lon" := MkCoordVar horiz (CoordArray (_lon_out self))]> ∅).

(** The coordinates that the loop of [regrid_dataarray] over the
    dimensions [l] leaves, starting from [m]. *)
Definition copy_coords (dr_in : DataArray) (m : gmap string CoordVar)
    (l : list string) : gmap string CoordVar :=
  foldl (fun m dim =>
           match coords_getitem dr_in dim with
           | Ok c => merge_coords m dim c
           | Raise _ => m
           end) m l.

(** ** The events of the weight file decision *)

Definition create_events (self : Regridder) : list event :=
  [Print ("Create weight file: " ++ filename self)%string;
   EsmfRegridBuild (_grid_in self) (_grid_out self) (method self) (filename self);
   EsmfRegridFinalize].

Definition reuse_events (self : Regridder) : list event :=
  [Print ("Reuse existing file: " ++ filename self)%string].

Definition overwrite_events (self : Regridder) : list event :=
  [Print ("Overwrite existing file: " ++ filename self ++ " " ++ nl ++ " "
          ++ "You can set reuse_weights=True to save computing time.")%string;
   OsRemove (filename self);
   EsmfRegridBuild (_grid_in self) (_grid_out self) (method self) (filename self);
   EsmfRegridFinalize].

(** The weights the engine computes for the regridder's grids and method. *)
Definition built_weights (self : Regridder) : list triplet :=
  compute_weights (_grid_in self) (_grid_out self) (method self).

(** A computation is uniform when its result and the events it emits are the
    same in every world, and it leaves the files alone. *)
Definition uniform {X} (c : M world X) : Prop :=
  exists r evs, forall w, c w = (r, World (files w) ((log w ++ evs)%list)).

(** The number of times a trace invokes the engine to compute weights. *)
Definition is_engine_build (e : event) : bool :=
  match e with
  | EsmfRegridBuild _ _ _ _ => true
  | _ => false
  end.

Definition engine_invocations (evs : list event) : nat :=
  length (List.filter is_engine_build evs).

(** A computation is quiet when it is uniform and never invokes the engine
    to compute weights. *)
Definition quiet {X} (c : M world X) : Prop :=
  exists r evs,
    engine_invocations evs = 0 /\
    forall w, c w = (r, World (files w) ((log w ++ evs)%list)).

(** The last steps of [__init__], once the regridder's fields are set: the
    weight file is written and read. *)
Definition init_tail (self : Regridder) : M world Regridder :=
  _write_weight_file self ;;
  m <- read_weights (filename self) (N_in self) (N_out self) ;;
  ret (set_A self m).

(** A computation runs a quiet prefix that sets up a regridder, and then
    [tail] on it. *)
Definition splits {Y} (c : M world Y) (tail : Regridder -> M world Y) : Prop :=
  exists r evs,
    engine_invocations evs = 0 /\
    forall w,
      c w = match r with
            | Ok self => tail self (World (files w) ((log w ++ evs)%list))
            | Raise e => (Raise e, World (files w) ((log w ++ evs)%list))
            end.

End Frontend.

(** ** A worked scenario

    Input grid 3x4, output grid 2x2, integer elements, and an engine whose
    weights pick the four corners of the input grid. *)

Section Scenario.

Definition Z_scalar : Scalar :=
  {| V := Z; vzero := 0%Z; vadd := Z.add; vmul := Z.mul |}.

#[local] Existing Instance Z_scalar.

Definition corner_weights : list triplet :=
  [(0, 0, 1%Z); (1, 3, 1%Z); (2, 8, 1%Z); (3, 11, 1%Z)].

Definition corner_engine : Engine :=
  {| compute_weights := fun _ _ _ => corner_weights |}.

#[local] Existing Instance corner_engine.

(** [np.arange(size).reshape(shp)] *)
Definition arange (shp : list nat) : ndarray :=
  NdArray shp (map Z.of_nat (seq 0 (prod_list shp))).

Definition lon_1d : ndarray := NdArray [4] [0; 90; 180; 270]%Z.
Definition lat_1d : ndarray := NdArray [3] [-60; 0; 60]%Z.

Definition lon_2d : ndarray :=
  NdArray [3; 4] [0; 90; 180; 270; 0; 90; 180; 270; 0; 90; 180; 270]%Z.
Definition lat_2d : ndarray :=
  NdArray [3; 4] [-60; -60; -60; -60; 0; 0; 0; 0; 60; 60; 60; 60]%Z.

Definition lon_out_2d : ndarray := NdArray [2; 2] [45; 225; 45; 225]%Z.
Definition lat_out_2d : ndarray := NdArray [2; 2] [-30; -30; 30; 30]%Z.

Definition ds_in_1d : gmap string ndarray :=
  <["lon" := lon_1d]> (<["lat" := lat_1d]> ∅).
Definition ds_in_2d : gmap string ndarray :=
  <["lon" := lon_2d]> (<["lat" := lat_2d]> ∅).
Definition ds_out_2d : gmap string ndarray :=
  <["lon" := lon_out_2d]> (<["lat" := lat_out_2d]> ∅).

(** The same grids with their cell corners, for the conservative method. *)
Definition ds_in_bounds : gmap string ndarray :=
  <["lon_b" := arange [4; 5]]> (<["lat_b" := arange [4; 5]]> ds_in_2d).
Definition ds_out_bounds : gmap string ndarray :=
  <["lon_b" := arange [3; 3]]> (<["lat_b" := arange [3; 3]]> ds_out_2d).

Definition world0 : world := World ∅ [].

Definition scenario_grid_in : Grid :=
  MkGrid (transpose lon_2d) (transpose lat_2d) (Some false) None.
Definition scenario_grid_out : Grid :=
  MkGrid (transpose lon_out_2d) (transpose lat_out_2d) None None.

(** The regridder and the world that
    [Regridder(ds_in, ds_out, 'bilinear')] leaves behind. *)
Definition scenario_regridder : Regridder :=
  MkRegridder lon_out_2d lat_out_2d false "bilinear" false false
    scenario_grid_in scenario_grid_out 3 4 2 2 12 4
    "bilinear_3x4_2x2.nc" (SpMatrix 4 12 corner_weights).

Definition scenario_world : world :=
  World (<["bilinear_3x4_2x2.nc" := corner_weights]> ∅)
    [EsmfGrid (transpose lon_2d) (transpose lat_2d) (Some false);
     EsmfGrid (transpose lon_out_2d) (transpose lat_out_2d) None;
     Print "Create weight file: bilinear_3x4_2x2.nc";
     EsmfRegridBuild scenario_grid_in scenario_grid_out "bilinear"
       "bilinear_3x4_2x2.nc";
     EsmfRegridFinalize;
     ReadWeights "bilinear_3x4_2x2.nc" 12 4].

(** The regridder of [Regridder(ds_in, ds_out, 'conservative',
    periodic=True)]. *)
Definition conservative_regridder : Regridder :=
  MkRegridder lon_out_2d lat_out_2d true "conservative" false false
    (MkGrid (transpose lon_2d) (transpose lat_2d) (Some false)
       (Some (transpose (arange [4; 5]), transpose (arange [4; 5]))))
    (MkGrid (transpose lon_out_2d) (transpose lat_out_2d) None
       (Some (transpose (arange [3; 3]), transpose (arange [3; 3]))))
    3 4 2 2 12 4 "conservative_3x4_2x2.nc" (SpMatrix 4 12 corner_weights).

Definition conservative_world : world :=
  snd (__init__ ds_in_bounds ds_out_bounds "conservative" true None false world0).




(** A DataArray without a stored [time] coordinate, with the month of
    every time step, a scalar height, the input grid's longitude and an
    attribute. *)
Definition month_coord : CoordVar :=
  MkCoordVar ["time"] (CoordArray (NdArray [5] [1; 2; 3; 4; 5]%Z)).

Definition height_coord : CoordVar :=
  MkCoordVar [] (CoordArray (NdArray [] [2]%Z)).

Definition dr_aux : DataArray :=
  MkDataArray (arange [5; 3; 4]) ["time"; "y"; "x"] (Some "t2m")
    (<["month" := month_coord]>
       (<["height" := height_coord]>
          (<["lon_in" := MkCoordVar ["y"; "x"] (CoordArray lon_2d)]> ∅)))
    (<["units" := "K"]> ∅).

(** The regridder of [Regridder(ds_in, ds_out, 'bilinear',
    reuse_weights=True)] when no weight file exists yet. *)
Definition reuse_regridder : Regridder :=
  MkRegridder lon_out_2d lat_out_2d false "bilinear" false true
    scenario_grid_in scenario_grid_out 3 4 2 2 12 4
    "bilinear_3x4_2x2.nc" (SpMatrix 4 12 corner_weights).

(** A world in which a weight file of another origin already sits under the
    default name, and the regridder constructed there with
    [reuse_weights=True]. *)
Definition stale_weights : list triplet := [(0, 1, 5%Z)].

Definition stale_world : world :=
  World (<["bilinear_3x4_2x2.nc" := stale_weights]> ∅) [].

Definition stale_regridder : Regridder :=
  MkRegridder lon_out_2d lat_out_2d false "bilinear" false true
    scenario_grid_in scenario_grid_out 3 4 2 2 12 4
    "bilinear_3x4_2x2.nc" (SpMatrix 4 12 stale_weights).

Definition stale_world_after : world :=
  snd (__init__ ds_in_2d ds_out_2d "bilinear" false None true stale_world).

(** The world after [clean_weight_file] on the scenario's regridder. *)
Definition cleaned_world : world :=
  snd (clean_weight_file scenario_regridder scenario_world).

(** A DataArray whose last two axes are [(4, 3)], not the input grid's. *)
Definition dr_mismatch : DataArray :=
  MkDataArray (arange [5; 4; 3]) ["time"; "y"; "x"] (Some "t2m") ∅ ∅.

(** Another input grid of the same sizes. *)
Definition ds_in_other : gmap string ndarray :=
  <["lon" := arange [3; 4]]> (<["lat" := arange [3; 4]]> ∅).

Definition other_regridder : Regridder :=
  MkRegridder lon_out_2d lat_out_2d false "bilinear" false true
    (MkGrid (transpose (arange [3; 4])) (transpose (arange [3; 4])) (Some false) None)
    scenario_grid_out 3 4 2 2 12 4
    "bilinear_3x4_2x2.nc" (SpMatrix 4 12 corner_weights).

Definition other_world : world :=
  snd (__init__ ds_in_other ds_out_2d "bilinear" false None true scenario_world).

End Scenario.

(** * Properties *)

Local Open Scope list_scope.

Section FrontendProperties.

Context {scalar : Scalar} {engine : Engine}.

(** ** Reasoning about computations *)

Lemma bind_Ok_inv {S X Y} (c : M S X) (k : X -> M S Y) s y s' :
  bind c k s = (Ok y, s') ->
  exists x s1, c s = (Ok x, s1) /\ k x s1 = (Ok y, s').
Proof.
  unfold bind. destruct (c s) as [[x | e] s1]; intros H.
  - exists x, s1. split; [reflexivity | exact H].
  - discriminate H.
Qed.

Lemma lift_Ok_inv {S X} (r : result X) (s s' : S) x :
  lift r s = (Ok x, s') -> r = Ok x /\ s' = s.
Proof. unfold lift. intros H. injection H as -> ->. split; reflexivity. Qed.

Lemma ret_inv {S X} (x y : X) (s s' : S) :
  ret x s = (Ok y, s') -> y = x /\ s' = s.
Proof. unfold ret. intros H. injection H as -> ->. split; reflexivity. Qed.

Lemma bind_eq {S X Y} (c : M S X) (k : X -> M S Y) s x s1 :
  c s = (Ok x, s1) -> bind c k s = k x s1.
Proof. unfold bind. intros ->. reflexivity. Qed.

Lemma bind_raise {S X Y} (c : M S X) (k : X -> M S Y) s e s1 :
  c s = (Raise e, s1) -> bind c k s = (Raise e, s1).
Proof. unfold bind. intros ->. reflexivity. Qed.

(** ** Shapes and slices *)

Lemma prod_list_app (l1 l2 : list nat) :
  prod_list (l1 ++ l2) = prod_list l1 * prod_list l2.
Proof.
  induction l1 as [| n l1 IH]; simpl.
  - lia.
  - rewrite IH. lia.
Qed.

Lemma slice_last2_app {X} (S : list X) (a b : X) :
  slice_last2 (S ++ [a; b]) = [a; b].
Proof.
  unfold slice_last2. rewrite length_app. simpl.
  replace (length S + 2 - 2) with (length S) by lia.
  apply drop_app_length.
Qed.

Lemma slice_but_last2_app {X} (S : list X) (a b : X) :
  slice_but_last2 (S ++ [a; b]) = S.
Proof.
  unfold slice_but_last2. rewrite length_app. simpl.
  replace (length S + 2 - 2) with (length S) by lia.
  apply take_app_length.
Qed.

Lemma slice_split {X} (l : list X) :
  l = slice_but_last2 l ++ slice_last2 l.
Proof. unfold slice_but_last2, slice_last2. symmetry. apply take_drop. Qed.

Lemma slice_last2_short {X} (l : list X) :
  length l < 2 -> length (slice_last2 l) < 2.
Proof.
  intros H. unfold slice_last2. rewrite length_drop. lia.
Qed.

(** ** [as_2d_mesh] *)

Lemma as_2d_mesh_cases (lon lat : ndarray) :
  (ndim lon = 2 -> ndim lat = 2 -> as_2d_mesh lon lat = Ok (lon, lat)) /\
  (ndim lon = 1 -> ndim lat = 1 ->
   exists lon2 lat2,
     as_2d_mesh lon lat = Ok (lon2, lat2) /\
     shape lon2 = [length (data lat); length (data lon)] /\
     shape lat2 = [length (data lat); length (data lon)] /\
     (forall i j d, i < length (data lat) -> j < length (data lon) ->
                    nth (i * length (data lon) + j) (data lon2) d
                    = nth j (data lon) d)) /\
  (ndim lon = 1 -> ndim lat = 2 -> as_2d_mesh lon lat = Raise ValueError) /\
  (ndim lon = 2 -> ndim lat = 1 -> as_2d_mesh lon lat = Raise ValueError).
Proof.
  unfold as_2d_mesh. repeat split.
  - intros -> ->. reflexivity.
  - intros -> ->. simpl. eexists. eexists. split; [reflexivity |].
    split; [reflexivity |]. split; [reflexivity |]. simpl.
    intros i j d Hi Hj.
    generalize dependent i.
    induction (length (data lat)) as [| n IH]; intros i Hi; [lia |].
    simpl. destruct i as [| i].
    + simpl. apply app_nth1. exact Hj.
    + rewrite app_nth2 by lia.
      replace (S i * length (data lon) + j - length (data lon))
        with (i * length (data lon) + j) by lia.
      apply IH. lia.
  - intros -> ->. reflexivity.
  - intros -> ->. reflexivity.
Qed.

(** ** The sparse product keeps the number of rows *)

Lemma length_spmv (m : spmatrix) (x : list V) : length (spmv m x) = nrows m.
Proof. unfold spmv. rewrite length_map. apply length_seq. Qed.

Lemma length_concat_spmv (m : spmatrix) (rows : list (list V)) :
  length (concat (map (spmv m) rows)) = length rows * nrows m.
Proof.
  induction rows as [| r rows IH]; simpl.
  - reflexivity.
  - rewrite length_app, length_spmv, IH. reflexivity.
Qed.

Lemma apply_weights_shape (m : spmatrix) (indata : ndarray) (S : list nat)
    (ny_in nx_in ny_out nx_out : nat) (w : world) :
  shape indata = S ++ [ny_in; nx_in] ->
  ncols m = ny_in * nx_in ->
  nrows m = ny_out * nx_out ->
  exists xs,
    apply_weights m indata ny_out nx_out w
    = (Ok (NdArray (S ++ [ny_out; nx_out]) xs),
       World (files w) (log w ++ [ApplyWeights (shape indata)])) /\
    length xs = prod_list (S ++ [ny_out; nx_out]).
Proof.
  intros Hshape Hc Hr.
  unfold apply_weights, bind, emit, lift, reshape.
  rewrite Hshape, slice_last2_app, slice_but_last2_app.
  destruct (decide _) as [_ | Hn].
  2: { exfalso. apply Hn. split; [reflexivity | simpl; lia]. }
  set (xs := concat _).
  assert (Hlen : length xs = prod_list (S ++ [ny_out; nx_out])).
  { unfold xs. rewrite length_concat_spmv, length_map, length_seq.
    rewrite prod_list_app. simpl. lia. }
  destruct (decide _) as [_ | Hn]; [| contradiction].
  exists xs. split; [reflexivity | exact Hlen].
Qed.

Lemma regrid_numpy_ok (self : Regridder) (indata : ndarray) (S : list nat) (w : world) :
  wf_regridder self ->
  shape indata = S ++ [Ny_in self; Nx_in self] ->
  exists outdata,
    regrid_numpy self indata w
    = (Ok outdata, World (files w) (log w ++ [ApplyWeights (shape indata)])) /\
    shape outdata = S ++ [Ny_out self; Nx_out self] /\
    wf_ndarray outdata.
Proof.
  intros (Hin & Hout & Hr & Hc) Hshape.
  unfold regrid_numpy.
  destruct (decide _) as [_ | Hn].
  2: { exfalso. apply Hn. rewrite Hshape. apply slice_last2_app. }
  destruct (apply_weights_shape (A self) indata S (Ny_in self) (Nx_in self)
              (Ny_out self) (Nx_out self) w Hshape) as (xs & Heq & Hlen);
    [lia | lia |].
  eexists. split; [exact Heq |]. split; [reflexivity | exact Hlen].
Qed.

Lemma regrid_numpy_mismatch (self : Regridder) (indata : ndarray) (w : world) :
  slice_last2 (shape indata) <> [Ny_in self; Nx_in self] ->
  regrid_numpy self indata w = (Raise AssertionError, w).
Proof.
  intros Hne. unfold regrid_numpy.
  destruct (decide _) as [Heq | _]; [contradiction | reflexivity].
Qed.

(** ** The weight file decision *)

Lemma write_weight_file_cases (self : Regridder) (w : world) :
  _write_weight_file self w =
  match files w !! filename self with
  | None =>
      (Ok tt, World (<[filename self := built_weights self]> (files w))
                    (log w ++ create_events self))
  | Some _ =>
      if reuse_weights self then
        (Ok tt, World (files w) (log w ++ reuse_events self))
      else
        (Ok tt, World (<[filename self := built_weights self]>
                         (delete (filename self) (files w)))
                      (log w ++ overwrite_events self))
  end.
Proof.
  unfold _write_weight_file, bind, os_path_exists, print, emit, os_remove,
    esmf_regrid_build, esmf_regrid_finalize, emit.
  destruct (files w !! filename self) as [ts |] eqn:Hf.
  - rewrite bool_decide_eq_true_2 by eauto.
    destruct (reuse_weights self); simpl.
    + reflexivity.
    + rewrite Hf. simpl. rewrite <- !app_assoc. reflexivity.
  - rewrite bool_decide_eq_false_2 by (intros [? ?]; discriminate).
    simpl. rewrite <- !app_assoc. reflexivity.
Qed.

Lemma write_weight_file_log (self : Regridder) (w w' : world) r :
  _write_weight_file self w = (r, w') ->
  r = Ok tt /\ exists evs, log w' = log w ++ evs.
Proof.
  rewrite write_weight_file_cases.
  destruct (files w !! filename self); [destruct (reuse_weights self) |];
    intros H; injection H as <- <-; simpl; eauto.
Qed.

Lemma read_weights_inv (f : string) (n_in n_out : nat) (w w' : world) m :
  read_weights f n_in n_out w = (Ok m, w') ->
  nrows m = n_out /\ ncols m = n_in /\
  files w !! f = Some (entries m) /\
  files w' = files w /\
  log w' = log w ++ [ReadWeights f n_in n_out].
Proof.
  unfold read_weights, bind, emit. simpl.
  destruct (files w !! f) as [ts |]; [| discriminate].
  destruct (forallb _ ts); [| discriminate].
  intros H. injection H as <- <-. simpl. auto.
Qed.

(** ** Construction *)

Lemma ds_getitem_inv (ds : gmap string ndarray) (key : string) a :
  ds_getitem ds key = Ok a -> ds !! key = Some a.
Proof. unfold ds_getitem. destruct (ds !! key); congruence. Qed.

Lemma unpack2_inv (t : list nat) (p : nat * nat) :
  unpack2 t = Ok p -> t = [fst p; snd p].
Proof.
  destruct t as [| a [| b [| c t]]]; simpl; try discriminate.
  intros H. injection H as <-. reflexivity.
Qed.

Lemma ds_to_ESMFgrid_inv (ds : gmap string ndarray) (nb : bool) (per : option bool)
    (w w' : world) (g : Grid) :
  ds_to_ESMFgrid ds nb per w = (Ok g, w') ->
  exists lon lat evs,
    ds !! "lon" = Some lon /\ ds !! "lat" = Some lat /\
    g_lon g = transpose lon /\ g_lat g = transpose lat /\
    g_periodic g = per /\
    files w' = files w /\
    log w' = log w ++ EsmfGrid (transpose lon) (transpose lat) per :: evs.
Proof.
  unfold ds_to_ESMFgrid. intros H.
  apply bind_Ok_inv in H as (lon & w1 & Hlon & H).
  apply lift_Ok_inv in Hlon as [Hlon ->]. apply ds_getitem_inv in Hlon.
  apply bind_Ok_inv in H as (lat & w1 & Hlat & H).
  apply lift_Ok_inv in Hlat as [Hlat ->]. apply ds_getitem_inv in Hlat.
  apply bind_Ok_inv in H as (grid & w1 & Hg & H).
  unfold esmf_grid, bind, emit, ret in Hg. simpl in Hg.
  injection Hg as <- <-.
  exists lon, lat.
  destruct nb.
  - apply bind_Ok_inv in H as (lon_b & w1 & Hlb & H).
    apply lift_Ok_inv in Hlb as [_ ->].
    apply bind_Ok_inv in H as (lat_b & w1 & Hlb & H).
    apply lift_Ok_inv in Hlb as [_ ->].
    unfold add_corner, bind, emit, ret in H. simpl in H.
    injection H as <- <-. simpl.
    exists [AddCorner (transpose lon_b) (transpose lat_b)].
    rewrite <- app_assoc. auto 10.
  - apply ret_inv in H as [-> ->]. simpl. exists []. auto 10.
Qed.

Lemma init_inv (ds_in ds_out : gmap string ndarray) (meth : string) (peri : bool)
    (fname : option string) (reuse : bool) (w w' : world) (self : Regridder) :
  __init__ ds_in ds_out meth peri fname reuse w = (Ok self, w') ->
  exists lon_in lat_in evs,
    ds_in !! "lon" = Some lon_in /\ ds_in !! "lat" = Some lat_in /\
    ds_out !! "lon" = Some (_lon_out self) /\
    ds_out !! "lat" = Some (_lat_out self) /\
    shape lon_in = [Ny_in self; Nx_in self] /\
    shape (_lon_out self) = [Ny_out self; Nx_out self] /\
    wf_regridder self /\
    method self = meth /\
    need_bounds self = bool_decide (meth = "conservative") /\
    periodic self = (if decide (meth = "conservative") then false else peri) /\
    reuse_weights self = reuse /\
    filename self = match fname with
                    | None => _get_default_filename self
                    | Some f => f
                    end /\
    g_periodic (_grid_in self) = Some (periodic self) /\
    log w' = log w ++ EsmfGrid (transpose lon_in) (transpose lat_in)
                        (Some (periodic self)) :: evs.
Proof.
  unfold __init__. intros H.
  apply bind_Ok_inv in H as (lon_out & w1 & Hc & H).
  apply lift_Ok_inv in Hc as [Hlon_out ->]. apply ds_getitem_inv in Hlon_out.
  apply bind_Ok_inv in H as (lat_out & w1 & Hc & H).
  apply lift_Ok_inv in Hc as [Hlat_out ->]. apply ds_getitem_inv in Hlat_out.
  set (sw := if decide (meth = "conservative") then (true, false) else (false, peri)) in H.
  assert (Hsw : sw = (bool_decide (meth = "conservative"),
                      if decide (meth = "conservative") then false else peri)).
  { unfold sw. destruct (decide _) as [Hm | Hm].
    - rewrite bool_decide_eq_true_2 by exact Hm. reflexivity.
    - rewrite bool_decide_eq_false_2 by exact Hm. reflexivity. }
  clearbody sw. subst sw.
  apply bind_Ok_inv in H as (grid_in & w1 & Hgi & H).
  apply ds_to_ESMFgrid_inv in Hgi
    as (lon_in & lat_in & evs1 & Hlon_in & Hlat_in & _ & _ & Hper & Hf1 & Hl1).
  apply bind_Ok_inv in H as (grid_out & w2 & Hgo & H).
  apply ds_to_ESMFgrid_inv in Hgo
    as (? & ? & evs2 & _ & _ & _ & _ & _ & Hf2 & Hl2).
  apply bind_Ok_inv in H as (lon_in' & w3 & Hc & H).
  apply lift_Ok_inv in Hc as [Hc ->]. apply ds_getitem_inv in Hc.
  rewrite Hlon_in in Hc. injection Hc as <-.
  apply bind_Ok_inv in H as (shape_in & w3 & Hc & H).
  apply lift_Ok_inv in Hc as [Hsi ->]. apply unpack2_inv in Hsi.
  apply bind_Ok_inv in H as (shape_out & w3 & Hc & H).
  apply lift_Ok_inv in Hc as [Hso ->]. apply unpack2_inv in Hso.
  apply bind_Ok_inv in H as ([] & w3 & Hw & H).
  apply write_weight_file_log in Hw as [_ [evs3 Hl3]].
  apply bind_Ok_inv in H as (m & w4 & Hr & H).
  apply read_weights_inv in Hr as (Hnr & Hnc & _ & _ & Hl4).
  apply ret_inv in H as [-> ->].
  exists lon_in, lat_in.
  destruct fname as [f |]; simpl in *; eexists;
    (repeat split; try assumption; try reflexivity;
     [ unfold size; rewrite Hsi; simpl; lia
     | unfold size; rewrite Hso; simpl; lia
     | rewrite Hl4, Hl3, Hl2, Hl1; rewrite <- !app_assoc; simpl; reflexivity ]).
Qed.

Lemma ds_getitem_Some (ds : gmap string ndarray) (key : string) a :
  ds !! key = Some a -> ds_getitem ds key = Ok a.
Proof. unfold ds_getitem. intros ->. reflexivity. Qed.

Lemma ds_to_ESMFgrid_returns (ds : gmap string ndarray) (nb : bool)
    (per : option bool) (w : world) (lon lat : ndarray) :
  ds !! "lon" = Some lon -> ds !! "lat" = Some lat ->
  (nb = true -> is_Some (ds !! "lon_b") /\ is_Some (ds !! "lat_b")) ->
  exists g evs,
    ds_to_ESMFgrid ds nb per w = (Ok g, World (files w) (log w ++ evs)).
Proof.
  intros Hlon Hlat Hb. unfold ds_to_ESMFgrid, bind, lift.
  rewrite (ds_getitem_Some _ _ _ Hlon), (ds_getitem_Some _ _ _ Hlat).
  unfold esmf_grid, bind, emit, ret. simpl.
  destruct nb.
  - destruct (Hb eq_refl) as [[lon_b Hlb] [lat_b Hlc]].
    rewrite (ds_getitem_Some _ _ _ Hlb), (ds_getitem_Some _ _ _ Hlc).
    unfold add_corner, bind, emit, ret. simpl.
    eexists. eexists. rewrite <- app_assoc. reflexivity.
  - eexists. eexists. reflexivity.
Qed.

(** Construction returns: both grids give 2D [lon] arrays (and their bounds
    when the method is conservative), the engine computes weights within the
    sizes of the two grids and so do the weight files already present. *)
Lemma init_returns (ds_in ds_out : gmap string ndarray) (meth : string)
    (peri : bool) (fname : option string) (reuse : bool) (w : world)
    (lon_in lat_in lon_out lat_out : ndarray) (ny_in nx_in ny_out nx_out : nat) :
  ds_in !! "lon" = Some lon_in -> ds_in !! "lat" = Some lat_in ->
  ds_out !! "lon" = Some lon_out -> ds_out !! "lat" = Some lat_out ->
  shape lon_in = [ny_in; nx_in] -> shape lon_out = [ny_out; nx_out] ->
  (meth = "conservative" ->
   (is_Some (ds_in !! "lon_b") /\ is_Some (ds_in !! "lat_b")) /\
   (is_Some (ds_out !! "lon_b") /\ is_Some (ds_out !! "lat_b"))) ->
  (forall gi go,
     forallb (in_range (size lon_in) (size lon_out)) (compute_weights gi go meth)
     = true) ->
  (forall f ts,
     files w !! f = Some ts ->
     forallb (in_range (size lon_in) (size lon_out)) ts = true) ->
  exists self w', __init__ ds_in ds_out meth peri fname reuse w = (Ok self, w').
Proof.
  intros Hlon_in Hlat_in Hlon_out Hlat_out Hsi Hso Hb Hengine Hfiles.
  unfold __init__.
  rewrite (bind_eq _ _ w lon_out w)
    by (unfold lift; rewrite (ds_getitem_Some _ _ _ Hlon_out); reflexivity).
  rewrite (bind_eq _ _ w lat_out w)
    by (unfold lift; rewrite (ds_getitem_Some _ _ _ Hlat_out); reflexivity).
  set (sw := if decide (meth = "conservative") then (true, false) else (false, peri)).
  assert (Hnb : sw.1 = true -> meth = "conservative").
  { unfold sw. destruct (decide _); [auto | discriminate]. }
  destruct sw as [nb per]. simpl in Hnb.
  destruct (ds_to_ESMFgrid_returns ds_in nb (Some per) w lon_in lat_in Hlon_in Hlat_in)
    as (gi & evs1 & Hgi); [intros Hn; exact (proj1 (Hb (Hnb Hn))) |].
  rewrite (bind_eq _ _ _ _ _ Hgi).
  set (w1 := World (files w) (log w ++ evs1)).
  destruct (ds_to_ESMFgrid_returns ds_out nb None w1 lon_out lat_out Hlon_out Hlat_out)
    as (go & evs2 & Hgo); [intros Hn; exact (proj2 (Hb (Hnb Hn))) |].
  rewrite (bind_eq _ _ _ _ _ Hgo).
  set (w2 := World (files w1) (log w1 ++ evs2)).
  rewrite (bind_eq _ _ w2 lon_in w2)
    by (unfold lift; rewrite (ds_getitem_Some _ _ _ Hlon_in); reflexivity).
  rewrite (bind_eq _ _ w2 (ny_in, nx_in) w2)
    by (unfold lift; rewrite Hsi; reflexivity).
  rewrite (bind_eq _ _ w2 (ny_out, nx_out) w2)
    by (unfold lift; rewrite Hso; reflexivity).
  cbn [fst snd].
  set (self := match fname with
               | None => set_filename _ _
               | Some f => set_filename _ f
               end).
  assert (Hmeth : method self = meth) by (unfold self; destruct fname; reflexivity).
  assert (Hnin : N_in self = size lon_in) by (unfold self; destruct fname; reflexivity).
  assert (Hnout : N_out self = size lon_out) by (unfold self; destruct fname; reflexivity).
  clearbody self.
  assert (Hw : exists w3 ts,
             _write_weight_file self w2 = (Ok tt, w3) /\
             files w3 !! filename self = Some ts /\
             forallb (in_range (size lon_in) (size lon_out)) ts = true).
  { rewrite write_weight_file_cases.
    destruct (files w2 !! filename self) as [ts |] eqn:Hf;
      [destruct (reuse_weights self) |].
    - eexists. exists ts. split; [reflexivity |]. simpl.
      split; [exact Hf | exact (Hfiles _ _ Hf)].
    - eexists. eexists. split; [reflexivity |]. simpl.
      split; [apply lookup_insert_eq |].
      unfold built_weights. rewrite Hmeth. apply Hengine.
    - eexists. eexists. split; [reflexivity |]. simpl.
      split; [apply lookup_insert_eq |].
      unfold built_weights. rewrite Hmeth. apply Hengine. }
  destruct Hw as (w3 & ts & Hw & Hts & Hrange).
  rewrite (bind_eq _ _ _ _ _ Hw).
  unfold read_weights, bind at 1, bind at 1, emit. simpl.
  rewrite Hts, Hnin, Hnout, Hrange.
  eexists. eexists. reflexivity.
Qed.

(** ** Calls do not read the file system *)

Lemma world_eta (w : world) : World (files w) (log w ++ []) = w.
Proof. destruct w. simpl. rewrite app_nil_r. reflexivity. Qed.

Lemma uniform_lift {X} (r : result X) : uniform (lift r).
Proof. exists r, []. intros w. unfold lift. rewrite world_eta. reflexivity. Qed.

Lemma uniform_ret {X} (x : X) : uniform (ret x).
Proof. apply (uniform_lift (Ok x)). Qed.

Lemma uniform_raise {X} (e : exn) : uniform (raise (A := X) e).
Proof. apply (uniform_lift (Raise e)). Qed.

Lemma uniform_emit (e : event) : uniform (emit e).
Proof. exists (Ok tt), [e]. reflexivity. Qed.

Lemma uniform_bind {X Y} (c : M world X) (k : X -> M world Y) :
  uniform c -> (forall x, uniform (k x)) -> uniform (bind c k).
Proof.
  intros (r & evs & Hc) Hk. destruct r as [x | e].
  - destruct (Hk x) as (r' & evs' & Hk').
    exists r', (evs ++ evs'). intros w. unfold bind.
    rewrite Hc, Hk'. simpl. rewrite app_assoc. reflexivity.
  - exists (Raise e), evs. intros w. unfold bind. rewrite Hc. reflexivity.
Qed.

Lemma uniform_for_each {X Y} (xs : list X) (body : Y -> X -> M world Y) :
  (forall acc x, uniform (body acc x)) -> forall acc, uniform (for_each xs body acc).
Proof.
  intros Hbody. induction xs as [| x xs IH]; intros acc; simpl.
  - apply uniform_ret.
  - apply uniform_bind; [apply Hbody | exact IH].
Qed.

Lemma uniform_apply_weights (m : spmatrix) (indata : ndarray) (ny nx : nat) :
  uniform (apply_weights m indata ny nx).
Proof.
  unfold apply_weights. apply uniform_bind; [apply uniform_emit | intros _].
  destruct (decide _); [apply uniform_lift | apply uniform_raise].
Qed.

Lemma uniform_regrid_numpy (self : Regridder) (indata : ndarray) :
  uniform (regrid_numpy self indata).
Proof.
  unfold regrid_numpy.
  destruct (decide _); [apply uniform_apply_weights | apply uniform_raise].
Qed.

Lemma uniform_regrid_dataarray (self : Regridder) (dr_in : DataArray) :
  uniform (regrid_dataarray self dr_in).
Proof.
  unfold regrid_dataarray.
  apply uniform_bind; [apply uniform_regrid_numpy | intros outdata].
  do 5 (apply uniform_bind; [apply uniform_lift | intros ?]).
  apply uniform_bind; [| intros; apply uniform_ret].
  apply uniform_for_each. intros acc dim.
  apply uniform_bind; [apply uniform_lift | intros; apply uniform_lift].
Qed.

Lemma uniform_call (self : Regridder) (a : pyobject) : uniform (__call__ self a).
Proof.
  destruct a as [indata | dr_in | c]; simpl.
  - apply uniform_bind; [apply uniform_regrid_numpy | intros; apply uniform_ret].
  - apply uniform_bind; [apply uniform_regrid_dataarray | intros; apply uniform_ret].
  - apply uniform_raise.
Qed.

Lemma uniform_fst {X} (c : M world X) (w1 w2 : world) :
  uniform c -> fst (c w1) = fst (c w2).
Proof. intros (r & evs & Hc). rewrite !Hc. reflexivity. Qed.

Lemma append_assoc (s1 s2 s3 : string) :
  ((s1 ++ s2) ++ s3 = s1 ++ (s2 ++ s3))%string.
Proof.
  induction s1 as [| c s1 IH]; [reflexivity |].
  change (String c ((s1 ++ s2) ++ s3) = String c (s1 ++ (s2 ++ s3)))%string.
  rewrite IH. reflexivity.
Qed.

(** ** The regridder on numpy arrays *)

(** C1. Shape consistency: on a constructed regridder, an array whose shape
    is a leading shape [S] followed by [(Ny_in, Nx_in)] is regridded to an
    array of shape [S] followed by [(Ny_out, Nx_out)] that holds as many
    elements as its shape says, through [regrid_numpy] and through
    [__call__]; a pure 2D input of shape [(Ny_in, Nx_in)] gives a 2D output
    of shape [(Ny_out, Nx_out)]. *)
Theorem regrid_numpy_shape_consistency
    (ds_in ds_out : gmap string ndarray) (meth : string) (peri : bool)
    (fname : option string) (reuse : bool) (w0 w1 : world) (self : Regridder) :
  __init__ ds_in ds_out meth peri fname reuse w0 = (Ok self, w1) ->
  (forall (S : list nat) (indata : ndarray) (w : world),
     shape indata = S ++ [Ny_in self; Nx_in self] ->
     exists outdata w',
       regrid_numpy self indata w = (Ok outdata, w') /\
       __call__ self (PyNdarray indata) w = (Ok (PyNdarray outdata), w') /\
       shape outdata = S ++ [Ny_out self; Nx_out self] /\
       wf_ndarray outdata) /\
  (forall (indata : ndarray) (w : world),
     shape indata = [Ny_in self; Nx_in self] ->
     exists outdata w',
       regrid_numpy self indata w = (Ok outdata, w') /\
       shape outdata = [Ny_out self; Nx_out self]).
Proof.
  intros Hinit.
  apply init_inv in Hinit
    as (lon_in & lat_in & evs & _ & _ & _ & _ & _ & _ & Hwf & _).
  split.
  - intros S indata w Hshape.
    destruct (regrid_numpy_ok self indata S w Hwf Hshape)
      as (outdata & Hrun & Hout & Hlen).
    exists outdata. eexists. split; [exact Hrun |].
    split; [| split; assumption].
    simpl. rewrite (bind_eq _ _ _ _ _ Hrun). reflexivity.
  - intros indata w Hshape.
    destruct (regrid_numpy_ok self indata [] w Hwf Hshape)
      as (outdata & Hrun & Hout & _).
    exists outdata. eexists. split; [exact Hrun | exact Hout].
Qed.

(** C6. The trailing-shape precondition: on a constructed regridder, an
    array whose last two axes differ from [(Ny_in, Nx_in)] makes the call
    raise the assertion error with the world untouched, so that no weight
    application has taken place; when they agree the check raises nothing,
    the call is the weight application itself, and it returns. *)
Theorem regrid_numpy_trailing_shape_check
    (ds_in ds_out : gmap string ndarray) (meth : string) (peri : bool)
    (fname : option string) (reuse : bool) (w0 w1 : world) (self : Regridder) :
  __init__ ds_in ds_out meth peri fname reuse w0 = (Ok self, w1) ->
  forall (indata : ndarray) (w : world),
    (slice_last2 (shape indata) <> [Ny_in self; Nx_in self] ->
     regrid_numpy self indata w = (Raise AssertionError, w) /\
     __call__ self (PyNdarray indata) w = (Raise AssertionError, w)) /\
    (slice_last2 (shape indata) = [Ny_in self; Nx_in self] ->
     regrid_numpy self indata w
     = apply_weights (A self) indata (Ny_out self) (Nx_out self) w /\
     exists outdata w',
       regrid_numpy self indata w = (Ok outdata, w') /\
       __call__ self (PyNdarray indata) w = (Ok (PyNdarray outdata), w')).
Proof.
  intros Hinit indata w.
  apply init_inv in Hinit
    as (lon_in & lat_in & evs & _ & _ & _ & _ & _ & _ & Hwf & _).
  split.
  - intros Hne.
    pose proof (regrid_numpy_mismatch self indata w Hne) as Hrun.
    split; [exact Hrun |].
    simpl. apply bind_raise. exact Hrun.
  - intros Heq. split.
    { unfold regrid_numpy. rewrite decide_True by exact Heq. reflexivity. }
    assert (Hshape : shape indata
                     = slice_but_last2 (shape indata) ++ [Ny_in self; Nx_in self]).
    { rewrite <- Heq. apply slice_split. }
    destruct (regrid_numpy_ok self indata _ w Hwf Hshape)
      as (outdata & Hrun & _).
    exists outdata. eexists. split; [exact Hrun |].
    simpl. rewrite (bind_eq _ _ _ _ _ Hrun). reflexivity.
Qed.

(** C10. Input of rank 0 or 1: the slice of the last two axes has fewer than
    two elements, cannot equal [(Ny_in, Nx_in)], and the call raises the
    assertion error with the world untouched: weight application is never
    reached. *)
Theorem sub_2d_input_rejected (self : Regridder) (indata : ndarray) (w : world) :
  ndim indata < 2 ->
  length (slice_last2 (shape indata)) < 2 /\
  regrid_numpy self indata w = (Raise AssertionError, w) /\
  __call__ self (PyNdarray indata) w = (Raise AssertionError, w).
Proof.
  intros Hrank. unfold ndim in Hrank.
  pose proof (slice_last2_short (shape indata) Hrank) as Hshort.
  assert (Hne : slice_last2 (shape indata) <> [Ny_in self; Nx_in self]).
  { intros Heq. rewrite Heq in Hshort. simpl in Hshort. lia. }
  pose proof (regrid_numpy_mismatch self indata w Hne) as Hrun.
  split; [exact Hshort |]. split; [exact Hrun |].
  simpl. apply bind_raise. exact Hrun.
Qed.

(** ** Dispatch *)

(** C7. [__call__] dispatches on the representation of its input: a numpy
    array goes through [regrid_numpy], a DataArray through
    [regrid_dataarray], and an object of any other class raises [TypeError]
    with the world untouched, so that nothing has been regridded. *)
Theorem call_dispatch (self : Regridder) (w : world) :
  (forall indata : ndarray,
     __call__ self (PyNdarray indata) w =
     match regrid_numpy self indata w with
     | (Ok outdata, w') => (Ok (PyNdarray outdata), w')
     | (Raise e, w') => (Raise e, w')
     end) /\
  (forall dr_in : DataArray,
     __call__ self (PyDataArray dr_in) w =
     match regrid_dataarray self dr_in w with
     | (Ok dr_out, w') => (Ok (PyDataArray dr_out), w')
     | (Raise e, w') => (Raise e, w')
     end) /\
  (forall class_name : string,
     __call__ self (PyOther class_name) w = (Raise TypeError, w)).
Proof.
  split; [| split].
  - intros indata. simpl. unfold bind.
    destruct (regrid_numpy self indata w) as [[outdata | e] w']; reflexivity.
  - intros dr_in. simpl. unfold bind.
    destruct (regrid_dataarray self dr_in w) as [[dr_out | e] w']; reflexivity.
  - intros class_name. reflexivity.
Qed.

(** ** The weight file *)

(** C2. The weight file decision of [_write_weight_file]: when the file is
    absent the engine is invoked once and the file holds the weights it
    computed; when the file exists and [reuse_weights] is set, the reuse is
    reported, the engine is not invoked and the files are left as they are;
    when the file exists and [reuse_weights] is not set, the file is removed
    first and the engine is then invoked once to build it again. *)
Theorem write_weight_file_decision (self : Regridder) (w : world) :
  exists evs w',
    _write_weight_file self w = (Ok tt, w') /\
    log w' = log w ++ evs /\
    match files w !! filename self with
    | None =>
        evs = [Print ("Create weight file: " ++ filename self)%string;
               EsmfRegridBuild (_grid_in self) (_grid_out self) (method self)
                 (filename self);
               EsmfRegridFinalize] /\
        engine_invocations evs = 1 /\
        files w' = <[filename self := built_weights self]> (files w)
    | Some _ =>
        if reuse_weights self then
          evs = [Print ("Reuse existing file: " ++ filename self)%string] /\
          engine_invocations evs = 0 /\
          files w' = files w
        else
          evs = [Print ("Overwrite existing file: " ++ filename self ++ " "
                        ++ nl ++ " "
                        ++ "You can set reuse_weights=True to save computing time.")%string;
                 OsRemove (filename self);
                 EsmfRegridBuild (_grid_in self) (_grid_out self) (method self)
                   (filename self);
                 EsmfRegridFinalize] /\
          engine_invocations evs = 1 /\
          files w' = <[filename self := built_weights self]>
                       (delete (filename self) (files w))
    end.
Proof.
  rewrite write_weight_file_cases.
  destruct (files w !! filename self) as [ts |];
    [destruct (reuse_weights self) |];
    eexists; eexists; (split; [reflexivity |]); simpl;
    (split; [reflexivity |]); repeat split; eauto.
Qed.

(** C9. [clean_weight_file] never raises: it removes the weight file when it
    exists and only reports when the file is already absent; the regridder
    itself is not touched, and every later call gives the result it would
    have given before. *)
Theorem clean_weight_file_frame (self : Regridder) (w : world) :
  exists w',
    clean_weight_file self w = (Ok tt, w') /\
    files w' = delete (filename self) (files w) /\
    files w' !! filename self = None /\
    log w' = log w ++
      match files w !! filename self with
      | Some _ =>
          [Print ("Remove file " ++ filename self)%string;
           OsRemove (filename self);
           Print ("You can still use the regridder because the weights "
                  ++ "are already read into memory.")%string]
      | None =>
          [Print ("File " ++ filename self ++ " is already removed.")%string]
      end /\
    forall a : pyobject, fst (__call__ self a w') = fst (__call__ self a w).
Proof.
  unfold clean_weight_file, bind, os_path_exists, print, emit, os_remove.
  destruct (files w !! filename self) as [ts |] eqn:Hf.
  - rewrite bool_decide_eq_true_2 by eauto. simpl. rewrite Hf. simpl.
    eexists. split; [reflexivity |]. simpl.
    split; [reflexivity |]. split; [apply lookup_delete_eq |].
    split; [rewrite <- !app_assoc; reflexivity |].
    intros a. apply uniform_fst, uniform_call.
  - rewrite bool_decide_eq_false_2 by (intros [? ?]; discriminate). simpl.
    eexists. split; [reflexivity |]. simpl.
    split; [symmetry; apply delete_id; exact Hf |]. split; [exact Hf |].
    split; [reflexivity |].
    intros a. apply uniform_fst, uniform_call.
Qed.

(** ** Construction *)

(** C4. The default file name: when no file name is given, the constructed
    regridder's file name is the method, the two input sizes and the two
    output sizes of the grids' [lon] arrays, then [_peri] exactly when the
    stored periodic flag is set, then the extension. *)
Theorem default_filename_scheme
    (ds_in ds_out : gmap string ndarray) (meth : string) (peri : bool)
    (reuse : bool) (w0 w1 : world) (self : Regridder) :
  __init__ ds_in ds_out meth peri None reuse w0 = (Ok self, w1) ->
  exists lon_in lon_out,
    ds_in !! "lon" = Some lon_in /\ shape lon_in = [Ny_in self; Nx_in self] /\
    ds_out !! "lon" = Some lon_out /\ shape lon_out = [Ny_out self; Nx_out self] /\
    periodic self = (if decide (meth = "conservative") then false else peri) /\
    filename self =
      (meth ++ "_" ++ str_of_nat (Ny_in self) ++ "x" ++ str_of_nat (Nx_in self)
       ++ "_" ++ str_of_nat (Ny_out self) ++ "x" ++ str_of_nat (Nx_out self)
       ++ (if periodic self then "_peri" else "") ++ ".nc")%string.
Proof.
  intros Hinit.
  apply init_inv in Hinit
    as (lon_in & lat_in & evs & Hlon_in & _ & Hlon_out & _ & Hsi & Hso & _
        & Hmeth & _ & Hper & _ & Hfile & _).
  exists lon_in, (_lon_out self). do 5 (split; [assumption |]).
  rewrite Hfile. unfold _get_default_filename. rewrite Hmeth.
  destruct (periodic self); rewrite !append_assoc; reflexivity.
Qed.


(** ** The regridder on labelled arrays *)

Lemma regrid_numpy_Ok_inv (self : Regridder) (indata outdata : ndarray)
    (w w' : world) :
  regrid_numpy self indata w = (Ok outdata, w') ->
  slice_last2 (shape indata) = [Ny_in self; Nx_in self].
Proof.
  unfold regrid_numpy. destruct (decide _) as [Heq | _]; [intros _; exact Heq |].
  unfold raise. discriminate.
Qed.

(** ** Sizes of dimensions *)










(** ** Reading and assigning coordinates *)





Lemma coords_setitem_inv (dr dr' : DataArray) (key : string) (value : Coordinate) :
  coords_setitem dr key value = Ok dr' ->
  dr' = MkDataArray (values dr) (dims dr) (name dr)
          (merge_coords (coords dr) key value) (attrs dr) /\
  ~ (key ∈ c_dims (co_var value) /\ length (c_dims (co_var value)) <> 1).
Proof.
  unfold coords_setitem. cbn zeta.
  destruct (decide _) as [| Hname]; [discriminate |].
  destruct (decide _); [| discriminate].
  intros H. injection H as <-. auto.
Qed.


(** ** The loop over the leading dimensions *)


Lemma copy_coords_cons (dr_in : DataArray) (m : gmap string CoordVar)
    (dim : string) (l : list string) :
  copy_coords dr_in m (dim :: l)
  = copy_coords dr_in
      (match coords_getitem dr_in dim with
       | Ok c => merge_coords m dim c
       | Raise _ => m
       end) l.
Proof. reflexivity. Qed.




(** What the loop can leave: what was there, the coordinate of a dimension
    it ran over, or a coordinate carried by one. *)
Lemma copy_coords_bound (dr_in : DataArray) (l : list string) :
  forall (m : gmap string CoordVar) (k : string) (v : CoordVar),
    copy_coords dr_in m l !! k = Some v ->
    m !! k = Some v \/
    exists dim c,
      dim ∈ l /\ coords_getitem dr_in dim = Ok c /\
      (k = dim /\ v = co_var c \/ k <> dim /\ co_coords c !! k = Some v).
Proof.
  induction l as [| dim l IH]; intros m k v Hk; [left; exact Hk |].
  rewrite copy_coords_cons in Hk. apply IH in Hk as [Hk | (d & c & Hd & Hc & Hv)].
  - destruct (coords_getitem dr_in dim) as [c | e] eqn:Hget; [| left; exact Hk].
    unfold merge_coords in Hk.
    destruct (decide (k = dim)) as [-> | Hne].
    + rewrite lookup_insert_eq in Hk. injection Hk as <-.
      right. exists dim, c. split; [left |]. split; [exact Hget |]. left. auto.
    + rewrite lookup_insert_ne in Hk by congruence.
      apply lookup_union_Some_raw in Hk as [Hk | [_ Hk]]; [| left; exact Hk].
      rewrite lookup_delete_ne in Hk by congruence.
      right. exists dim, c. split; [left |]. split; [exact Hget |]. right. auto.
  - right. exists d, c. split; [right; exact Hd |]. auto.
Qed.

(** Whenever the loop returns, it has read every dimension's coordinate
    and left the coordinates [copy_coords] describes. *)
Lemma copy_loop_inv (dr_in : DataArray) :
  forall (l : list string) (acc acc' : DataArray) (w w' : world),
    for_each l
      (fun dr_out dim =>
         c <- lift (coords_getitem dr_in dim) ;;
         lift (coords_setitem dr_out dim c)) acc w
    = (Ok acc', w') ->
    w' = w /\
    acc' = MkDataArray (values acc) (dims acc) (name acc)
             (copy_coords dr_in (coords acc) l) (attrs acc) /\
    forall dim, dim ∈ l -> exists c, coords_getitem dr_in dim = Ok c.
Proof.
  induction l as [| dim l IH]; intros acc acc' w w' Hrun.
  - apply ret_inv in Hrun as [-> ->]. split; [reflexivity |].
    split; [destruct acc; reflexivity |].
    intros dim Hd. apply elem_of_nil in Hd. contradiction.
  - cbn [for_each] in Hrun.
    apply bind_Ok_inv in Hrun as (acc1 & w1 & Hstep & Hrun).
    apply bind_Ok_inv in Hstep as (c & w2 & Hget & Hset).
    apply lift_Ok_inv in Hget as [Hget ->].
    apply lift_Ok_inv in Hset as [Hset ->].
    apply coords_setitem_inv in Hset as [-> _].
    apply IH in Hrun as (-> & -> & Hall). cbn [values dims name coords attrs].
    split; [reflexivity |]. split.
    + rewrite copy_coords_cons, Hget. reflexivity.
    + intros d Hd. apply elem_of_cons in Hd as [-> | Hd]; [eauto | auto].
Qed.

(** ** [regrid_dataarray] *)



Lemma grid_coords_merge (self : Regridder) (horiz : list string) :
  merge_coords
    (merge_coords ∅ "lon"
       (as_coordinate (MkDataArray (_lon_out self) horiz None ∅ ∅)))
    "lat" (as_coordinate (MkDataArray (_lat_out self) horiz None ∅ ∅))
  = grid_coords self horiz.
Proof.
  unfold merge_coords, as_coordinate, grid_coords. simpl.
  rewrite !delete_empty, !(left_id_L ∅ (∪)). reflexivity.
Qed.


(** What [regrid_dataarray] returns, whenever it returns. *)
Lemma regrid_dataarray_inv (self : Regridder) (dr_in dr_out : DataArray)
    (w w' : world) :
  regrid_dataarray self dr_in w = (Ok dr_out, w') ->
  regrid_numpy self (values dr_in) w = (Ok (values dr_out), w') /\
  dr_out = MkDataArray (values dr_out) (dims dr_in) (name dr_in)
             (copy_coords dr_in (grid_coords self (slice_last2 (dims dr_in)))
                (slice_but_last2 (dims dr_in)))
             {["regrid_method" := method self]} /\
  forall dim, dim ∈ slice_but_last2 (dims dr_in) ->
              exists c, coords_getitem dr_in dim = Ok c.
Proof.
  unfold regrid_dataarray. intros Hrun.
  apply bind_Ok_inv in Hrun as (outdata & w1 & Hnum & Hrun). cbn zeta in Hrun.
  apply bind_Ok_inv in Hrun as (dr0 & w2 & H0 & Hrun).
  apply lift_Ok_inv in H0 as [H0 ->].
  apply bind_Ok_inv in Hrun as (lon & w2 & Hlon & Hrun).
  apply lift_Ok_inv in Hlon as [Hlon ->].
  apply bind_Ok_inv in Hrun as (dr1 & w2 & H1 & Hrun).
  apply lift_Ok_inv in H1 as [H1 ->].
  apply bind_Ok_inv in Hrun as (lat & w2 & Hlat & Hrun).
  apply lift_Ok_inv in Hlat as [Hlat ->].
  apply bind_Ok_inv in Hrun as (dr2 & w2 & H2 & Hrun).
  apply lift_Ok_inv in H2 as [H2 ->].
  apply bind_Ok_inv in Hrun as (dr3 & w2 & Hloop & Hrun).
  apply ret_inv in Hrun as [-> ->].
  apply copy_loop_inv in Hloop as (-> & -> & Hall).
  unfold xr_DataArray in H0, Hlon, Hlat.
  destruct (decide _) in H0; [| discriminate]. injection H0 as <-.
  destruct (decide _) in Hlon; [| discriminate]. injection Hlon as <-.
  destruct (decide _) in Hlat; [| discriminate]. injection Hlat as <-.
  apply coords_setitem_inv in H1 as [-> _].
  apply coords_setitem_inv in H2 as [-> _].
  cbn [values dims name coords attrs attrs_setitem].
  split; [exact Hnum |]. split; [| exact Hall].
  rewrite grid_coords_merge. unfold attrs_setitem.
  cbn [values dims name coords attrs]. rewrite insert_empty. reflexivity.
Qed.



End FrontendProperties.

(** * Further properties of the frontend *)

Section FrontendExtras.

Context {scalar : Scalar} {engine : Engine}.

(** ** Meshes *)

Lemma nth_concat_replicate {X} (n : nat) (l : list X) (i j : nat) (d : X) :
  i < n -> j < length l ->
  nth (i * length l + j) (concat (replicate n l)) d = nth j l d.
Proof.
  revert i. induction n as [| n IH]; intros i Hi Hj; [lia |].
  simpl. destruct i as [| i].
  - simpl. apply app_nth1. exact Hj.
  - rewrite app_nth2 by lia.
    replace (S i * length l + j - length l) with (i * length l + j) by lia.
    apply IH; lia.
Qed.

Lemma length_concat_replicate {X} (n : nat) (l : list X) :
  length (concat (replicate n l)) = n * length l.
Proof.
  induction n as [| n IH]; simpl; [reflexivity |].
  rewrite length_app, IH. reflexivity.
Qed.

Lemma nth_replicate_lt {X} (m j : nat) (y d : X) :
  j < m -> nth j (replicate m y) d = y.
Proof.
  revert j. induction m as [| m IH]; intros j Hj; [lia |].
  destruct j as [| j]; simpl; [reflexivity | apply IH; lia].
Qed.

Lemma nth_flat_map_replicate {X} (m : nat) (l : list X) (i j : nat) (d : X) :
  i < length l -> j < m ->
  nth (i * m + j) (flat_map (fun y => replicate m y) l) d = nth i l d.
Proof.
  revert i. induction l as [| y l IH]; intros i Hi Hj; simpl in Hi; [lia |].
  simpl. destruct i as [| i].
  - simpl. rewrite app_nth1 by (rewrite length_replicate; exact Hj).
    apply nth_replicate_lt. exact Hj.
  - rewrite app_nth2 by (rewrite length_replicate; lia).
    rewrite length_replicate.
    replace (S i * m + j - m) with (i * m + j) by lia.
    apply IH; lia.
Qed.

Lemma length_flat_map_replicate {X} (m : nat) (l : list X) :
  length (flat_map (fun y => replicate m y) l) = length l * m.
Proof.
  induction l as [| y l IH]; simpl; [reflexivity |].
  rewrite length_app, length_replicate, IH. reflexivity.
Qed.

(** X1. [as_2d_mesh] on a 1D longitude of length [nx] and a 1D latitude of
    length [ny] returns two well-formed arrays of shape [(ny, nx)]: the
    first holds [lon[j]] and the second [lat[i]] at row [i], column [j]. *)
Theorem as_2d_mesh_1d_mesh (lon lat : ndarray) (nx ny : nat) :
  wf_ndarray lon -> wf_ndarray lat ->
  shape lon = [nx] -> shape lat = [ny] ->
  exists lon2 lat2,
    as_2d_mesh lon lat = Ok (lon2, lat2) /\
    shape lon2 = [ny; nx] /\ shape lat2 = [ny; nx] /\
    wf_ndarray lon2 /\ wf_ndarray lat2 /\
    forall i j d, i < ny -> j < nx ->
      nth (i * nx + j) (data lon2) d = nth j (data lon) d /\
      nth (i * nx + j) (data lat2) d = nth i (data lat) d.
Proof.
  intros Hwlon Hwlat Hslon Hslat.
  assert (Hnx : length (data lon) = nx).
  { unfold wf_ndarray, size in Hwlon. rewrite Hslon in Hwlon. simpl in Hwlon. lia. }
  assert (Hny : length (data lat) = ny).
  { unfold wf_ndarray, size in Hwlat. rewrite Hslat in Hwlat. simpl in Hwlat. lia. }
  unfold as_2d_mesh, ndim. rewrite Hslon, Hslat. simpl.
  unfold meshgrid. rewrite Hnx, Hny.
  eexists. eexists. split; [reflexivity |]. simpl.
  split; [reflexivity |]. split; [reflexivity |].
  split; [| split].
  - unfold wf_ndarray, size. simpl.
    rewrite length_concat_replicate, Hnx. lia.
  - unfold wf_ndarray, size. simpl.
    rewrite length_flat_map_replicate, Hny. lia.
  - intros i j d Hi Hj. split.
    + rewrite <- Hnx. apply nth_concat_replicate; lia.
    + apply nth_flat_map_replicate; lia.
Qed.

(** X2. Whatever [as_2d_mesh] returns is a pair of 2D arrays, and
    [as_2d_mesh] maps that pair to itself. *)
Theorem as_2d_mesh_idempotent (lon lat lon2 lat2 : ndarray) :
  as_2d_mesh lon lat = Ok (lon2, lat2) ->
  ndim lon2 = 2 /\ ndim lat2 = 2 /\
  as_2d_mesh lon2 lat2 = Ok (lon2, lat2).
Proof.
  unfold as_2d_mesh.
  destruct (decide ((ndim lon, ndim lat) = (2, 2))) as [H22 | _].
  - intros H. injection H as <- <-. injection H22 as Hl1 Hl2.
    rewrite Hl1, Hl2. auto.
  - destruct (decide ((ndim lon, ndim lat) = (1, 1))) as [_ | _]; [| discriminate].
    unfold meshgrid. intros H. injection H as <- <-.
    split; [reflexivity |]. split; reflexivity.
Qed.

(** ** Transposition and grids *)

Lemma nth_map_seq {X} (f : nat -> X) (n k : nat) (d : X) :
  k < n -> nth k (map f (seq 0 n)) d = f k.
Proof.
  intros Hk.
  rewrite (nth_indep _ d (f 0)) by (rewrite length_map, length_seq; exact Hk).
  rewrite map_nth, seq_nth by exact Hk. reflexivity.
Qed.

Lemma unravel_2d (n m k : nat) : unravel [n; m] k = [k / m; k mod m].
Proof.
  cbn [unravel prod_list foldr]. rewrite Nat.mul_1_r, Nat.div_1_r. reflexivity.
Qed.

Lemma ravel_2d (n m i j : nat) : ravel [n; m] [i; j] = i * m + j.
Proof. cbn [ravel prod_list foldr]. lia. Qed.

Lemma transpose_2d (a : ndarray) (ny nx : nat) :
  shape a = [ny; nx] -> wf_ndarray a ->
  shape (transpose a) = [nx; ny] /\
  wf_ndarray (transpose a) /\
  forall i j d, i < ny -> j < nx ->
    nth (j * ny + i) (data (transpose a)) d = nth (i * nx + j) (data a) d.
Proof.
  destruct a as [shp xs]. cbn [shape data]. intros -> Hwf.
  unfold wf_ndarray, size in Hwf. cbn [shape data prod_list foldr] in Hwf.
  unfold transpose. cbn [shape data rev app].
  split; [reflexivity |]. split.
  - unfold wf_ndarray, size. cbn [shape data].
    rewrite length_map, length_seq. reflexivity.
  - intros i j d Hi Hj.
    rewrite nth_map_seq by (cbn [prod_list foldr]; nia).
    rewrite unravel_2d. cbn [rev app]. rewrite ravel_2d.
    rewrite Nat.div_add_l, Nat.div_small, Nat.add_0_r by lia.
    replace (j * ny + i) with (i + j * ny) by lia.
    rewrite Nat.Div0.mod_add, Nat.mod_small by lia.
    apply nth_indep. nia.
Qed.

Lemma transpose_1d (a : ndarray) (n : nat) :
  shape a = [n] -> wf_ndarray a -> transpose a = a.
Proof.
  destruct a as [shp xs]. cbn [shape data]. intros -> Hwf.
  unfold wf_ndarray, size in Hwf. cbn [shape data prod_list foldr] in Hwf.
  unfold transpose. cbn [shape data rev app]. f_equal.
  apply nth_ext with (d := vzero) (d' := vzero).
  - rewrite length_map, length_seq. cbn [prod_list foldr]. lia.
  - intros k Hk. rewrite length_map, length_seq in Hk.
    rewrite nth_map_seq by exact Hk.
    cbn [unravel ravel rev app prod_list foldr].
    rewrite Nat.div_1_r. f_equal. lia.
Qed.

(** X3. When [ds_to_ESMFgrid] returns on 2D [lon] and [lat] of shape
    [(ny, nx)], the engine was given both arrays with their axes swapped
    (shape [(nx, ny)], the element at [(j, i)] being the one at [(i, j)]),
    then the corners, also transposed, exactly when bounds are needed; no
    file is touched. *)
Theorem ds_to_ESMFgrid_transposed (ds : gmap string ndarray) (nb : bool)
    (per : option bool) (w w' : world) (g : Grid) (lon lat : ndarray) (ny nx : nat) :
  ds !! "lon" = Some lon -> ds !! "lat" = Some lat ->
  shape lon = [ny; nx] -> wf_ndarray lon ->
  shape lat = [ny; nx] -> wf_ndarray lat ->
  ds_to_ESMFgrid ds nb per w = (Ok g, w') ->
  exists lonT latT,
    shape lonT = [nx; ny] /\ shape latT = [nx; ny] /\
    wf_ndarray lonT /\ wf_ndarray latT /\
    (forall i j d, i < ny -> j < nx ->
       nth (j * ny + i) (data lonT) d = nth (i * nx + j) (data lon) d /\
       nth (j * ny + i) (data latT) d = nth (i * nx + j) (data lat) d) /\
    files w' = files w /\
    if nb then
      exists lon_b lat_b,
        ds !! "lon_b" = Some lon_b /\ ds !! "lat_b" = Some lat_b /\
        log w' = log w ++ [EsmfGrid lonT latT per;
                           AddCorner (transpose lon_b) (transpose lat_b)]
    else log w' = log w ++ [EsmfGrid lonT latT per].
Proof.
  intros Hlon Hlat Hslon Hwlon Hslat Hwlat.
  destruct (transpose_2d lon ny nx Hslon Hwlon) as (Hs1 & Hw1 & Hn1).
  destruct (transpose_2d lat ny nx Hslat Hwlat) as (Hs2 & Hw2 & Hn2).
  unfold ds_to_ESMFgrid, bind, lift, ds_getitem, esmf_grid, add_corner,
    bind, emit, ret.
  rewrite Hlon, Hlat. simpl. intros Hrun.
  exists (transpose lon), (transpose lat).
  do 4 (split; [assumption |]).
  split; [intros i j d Hi Hj; split; [apply Hn1 | apply Hn2]; assumption |].
  destruct nb.
  - destruct (ds !! "lon_b") as [lon_b |]; [| discriminate].
    destruct (ds !! "lat_b") as [lat_b |]; [| discriminate].
    simpl in Hrun. injection Hrun as _ <-. simpl.
    split; [reflexivity |]. exists lon_b, lat_b.
    rewrite <- app_assoc. auto.
  - injection Hrun as _ <-. simpl. auto.
Qed.

Lemma ds_to_ESMFgrid_missing_coordinate (ds : gmap string ndarray) (nb : bool)
    (per : option bool) (w : world) :
  ds !! "lon" = None \/ ds !! "lat" = None ->
  ds_to_ESMFgrid ds nb per w = (Raise KeyError, w).
Proof.
  intros Hmiss. unfold ds_to_ESMFgrid, bind, lift, ds_getitem.
  destruct (ds !! "lon") as [lon |]; [| reflexivity].
  destruct Hmiss as [Hm | Hm]; [discriminate |]. rewrite Hm. reflexivity.
Qed.

Lemma ds_to_ESMFgrid_missing_bounds (ds : gmap string ndarray)
    (per : option bool) (w : world) (lon lat : ndarray) :
  ds !! "lon" = Some lon -> ds !! "lat" = Some lat ->
  ds !! "lon_b" = None \/ ds !! "lat_b" = None ->
  ds_to_ESMFgrid ds true per w
  = (Raise KeyError,
     World (files w) (log w ++ [EsmfGrid (transpose lon) (transpose lat) per])).
Proof.
  intros Hlon Hlat Hmiss.
  unfold ds_to_ESMFgrid, bind, lift, ds_getitem, esmf_grid, bind, emit, ret.
  rewrite Hlon, Hlat. simpl.
  destruct (ds !! "lon_b") as [lon_b |]; [| reflexivity].
  destruct Hmiss as [Hm | Hm]; [discriminate |]. rewrite Hm. reflexivity.
Qed.

(** X4. [ds_to_ESMFgrid] on a missing key: without [lon] or [lat] it raises
    [KeyError] before anything else happens; with bounds needed and [lon_b]
    or [lat_b] missing it raises [KeyError] only after the engine has been
    given the transposed centres. *)
Theorem ds_to_ESMFgrid_missing_key (ds : gmap string ndarray) (nb : bool)
    (per : option bool) (w : world) :
  (ds !! "lon" = None \/ ds !! "lat" = None ->
   ds_to_ESMFgrid ds nb per w = (Raise KeyError, w)) /\
  (forall lon lat,
     ds !! "lon" = Some lon -> ds !! "lat" = Some lat -> nb = true ->
     ds !! "lon_b" = None \/ ds !! "lat_b" = None ->
     ds_to_ESMFgrid ds nb per w
     = (Raise KeyError,
        World (files w) (log w ++ [EsmfGrid (transpose lon) (transpose lat) per]))).
Proof.
  split.
  - apply ds_to_ESMFgrid_missing_coordinate.
  - intros lon lat Hlon Hlat -> Hmiss.
    apply ds_to_ESMFgrid_missing_bounds; assumption.
Qed.

(** ** Construction: the prefix before the weight file *)

Lemma engine_invocations_app (l1 l2 : list event) :
  engine_invocations (l1 ++ l2) = engine_invocations l1 + engine_invocations l2.
Proof.
  unfold engine_invocations. rewrite List.filter_app, length_app. reflexivity.
Qed.

Lemma quiet_lift {X} (r : result X) : quiet (lift r).
Proof.
  exists r, []. split; [reflexivity |].
  intros w. unfold lift. rewrite world_eta. reflexivity.
Qed.

Lemma quiet_emit (e : event) : is_engine_build e = false -> quiet (emit e).
Proof.
  intros He. exists (Ok tt), [e]. split; [| reflexivity].
  unfold engine_invocations. simpl. rewrite He. reflexivity.
Qed.

Lemma quiet_bind {X Y} (c : M world X) (k : X -> M world Y) :
  quiet c -> (forall x, quiet (k x)) -> quiet (bind c k).
Proof.
  intros (r & evs & He & Hc) Hk. destruct r as [x | e].
  - destruct (Hk x) as (r' & evs' & He' & Hk').
    exists r', (evs ++ evs'). split.
    + rewrite engine_invocations_app. lia.
    + intros w. unfold bind. rewrite Hc, Hk'. simpl. rewrite app_assoc. reflexivity.
  - exists (Raise e), evs. split; [exact He |].
    intros w. unfold bind. rewrite Hc. reflexivity.
Qed.

Lemma quiet_ds_to_ESMFgrid (ds : gmap string ndarray) (nb : bool) (per : option bool) :
  quiet (ds_to_ESMFgrid ds nb per).
Proof.
  unfold ds_to_ESMFgrid.
  apply quiet_bind; [apply quiet_lift | intros lon].
  apply quiet_bind; [apply quiet_lift | intros lat].
  apply quiet_bind.
  { unfold esmf_grid. apply quiet_bind; [apply quiet_emit; reflexivity | intros _].
    apply (quiet_lift (Ok _)). }
  intros grid. destruct nb; [| apply (quiet_lift (Ok _))].
  apply quiet_bind; [apply quiet_lift | intros lon_b].
  apply quiet_bind; [apply quiet_lift | intros lat_b].
  unfold add_corner. apply quiet_bind; [apply quiet_emit; reflexivity | intros _].
  apply (quiet_lift (Ok _)).
Qed.

Lemma splits_bind {X Y} (c : M world X) (k : X -> M world Y)
    (tail : Regridder -> M world Y) :
  quiet c -> (forall x, splits (k x) tail) -> splits (bind c k) tail.
Proof.
  intros (r & evs & He & Hc) Hk. destruct r as [x | e].
  - destruct (Hk x) as (r' & evs' & He' & Hk').
    exists r', (evs ++ evs'). split.
    + rewrite engine_invocations_app. lia.
    + intros w. unfold bind. rewrite Hc, Hk'. simpl. rewrite app_assoc. reflexivity.
  - exists (Raise e), evs. split; [exact He |].
    intros w. unfold bind. rewrite Hc. reflexivity.
Qed.

Lemma splits_tail {Y} (tail : Regridder -> M world Y) (self : Regridder) :
  splits (tail self) tail.
Proof.
  exists (Ok self), []. split; [reflexivity |].
  intros w. rewrite world_eta. reflexivity.
Qed.

Lemma init_splits (ds_in ds_out : gmap string ndarray) (meth : string)
    (peri : bool) (fname : option string) (reuse : bool) :
  splits (__init__ ds_in ds_out meth peri fname reuse) init_tail.
Proof.
  unfold __init__.
  apply splits_bind; [apply quiet_lift | intros lon_out].
  apply splits_bind; [apply quiet_lift | intros lat_out].
  destruct (decide (meth = "conservative"));
    (apply splits_bind; [apply quiet_ds_to_ESMFgrid | intros gi];
     apply splits_bind; [apply quiet_ds_to_ESMFgrid | intros go];
     apply splits_bind; [apply quiet_lift | intros lon_in];
     apply splits_bind; [apply quiet_lift | intros shape_in];
     apply splits_bind; [apply quiet_lift | intros shape_out];
     cbv zeta; apply (splits_tail init_tail)).
Qed.

Lemma read_weights_cases (f : string) (n_in n_out : nat) (w : world) :
  read_weights f n_in n_out w =
  match files w !! f with
  | None => (Raise IOError, World (files w) (log w ++ [ReadWeights f n_in n_out]))
  | Some ts =>
      if forallb (in_range n_in n_out) ts
      then (Ok (SpMatrix n_out n_in ts),
            World (files w) (log w ++ [ReadWeights f n_in n_out]))
      else (Raise FormatError,
            World (files w) (log w ++ [ReadWeights f n_in n_out]))
  end.
Proof.
  unfold read_weights, bind, emit. simpl.
  destruct (files w !! f) as [ts |]; [| reflexivity].
  destruct (forallb _ ts); reflexivity.
Qed.

(** The events of the weight file decision and the files it leaves, by the
    state of the file and the reuse flag. *)
Lemma init_tail_cases (self0 self : Regridder) (w w' : world) :
  init_tail self0 w = (Ok self, w') ->
  exists ts,
    self = set_A self0 (SpMatrix (N_out self0) (N_in self0) ts) /\
    forallb (in_range (N_in self0) (N_out self0)) ts = true /\
    match files w !! filename self0 with
    | Some old =>
        if reuse_weights self0 then
          ts = old /\
          w' = World (files w)
                 (log w ++ reuse_events self0
                    ++ [ReadWeights (filename self0) (N_in self0) (N_out self0)])
        else
          ts = built_weights self0 /\
          w' = World (<[filename self0 := ts]> (delete (filename self0) (files w)))
                 (log w ++ overwrite_events self0
                    ++ [ReadWeights (filename self0) (N_in self0) (N_out self0)])
    | None =>
        ts = built_weights self0 /\
        w' = World (<[filename self0 := ts]> (files w))
               (log w ++ create_events self0
                  ++ [ReadWeights (filename self0) (N_in self0) (N_out self0)])
    end.
Proof.
  unfold init_tail. intros H.
  apply bind_Ok_inv in H as ([] & w3 & Hw & H).
  apply bind_Ok_inv in H as (m & w4 & Hr & H).
  apply ret_inv in H as [-> ->].
  rewrite write_weight_file_cases in Hw.
  rewrite read_weights_cases in Hr.
  destruct (files w !! filename self0) as [old |] eqn:Hf;
    [destruct (reuse_weights self0) |];
    injection Hw as <-; simpl in Hr.
  - rewrite Hf in Hr.
    destruct (forallb _ old) eqn:Hrange; [| discriminate].
    injection Hr as <- <-. exists old.
    rewrite <- app_assoc. auto.
  - rewrite lookup_insert_eq in Hr.
    destruct (forallb _ (built_weights self0)) eqn:Hrange; [| discriminate].
    injection Hr as <- <-. exists (built_weights self0).
    rewrite <- app_assoc. auto.
  - rewrite lookup_insert_eq in Hr.
    destruct (forallb _ (built_weights self0)) eqn:Hrange; [| discriminate].
    injection Hr as <- <-. exists (built_weights self0).
    rewrite <- app_assoc. auto.
Qed.

Lemma init_Ok_split (ds_in ds_out : gmap string ndarray) (meth : string)
    (peri : bool) (fname : option string) (reuse : bool) (w w' : world)
    (self : Regridder) :
  __init__ ds_in ds_out meth peri fname reuse w = (Ok self, w') ->
  exists self0 evs,
    engine_invocations evs = 0 /\
    (forall w2, __init__ ds_in ds_out meth peri fname reuse w2
                = init_tail self0 (World (files w2) (log w2 ++ evs))) /\
    init_tail self0 (World (files w) (log w ++ evs)) = (Ok self, w').
Proof.
  intros H.
  destruct (init_splits ds_in ds_out meth peri fname reuse) as (r & evs & He & Hs).
  destruct r as [self0 | e].
  - exists self0, evs. split; [exact He |]. split; [exact Hs |].
    rewrite <- Hs. exact H.
  - rewrite Hs in H. discriminate.
Qed.

Lemma ds_to_ESMFgrid_quiet_returns (ds : gmap string ndarray) (nb : bool)
    (per : option bool) (lon lat : ndarray) :
  ds !! "lon" = Some lon -> ds !! "lat" = Some lat ->
  (nb = true -> is_Some (ds !! "lon_b") /\ is_Some (ds !! "lat_b")) ->
  exists g evs,
    engine_invocations evs = 0 /\
    forall w, ds_to_ESMFgrid ds nb per w = (Ok g, World (files w) (log w ++ evs)).
Proof.
  intros Hlon Hlat Hb.
  destruct (quiet_ds_to_ESMFgrid ds nb per) as (r & evs & He & Hq).
  destruct (ds_to_ESMFgrid_returns ds nb per (World ∅ []) lon lat Hlon Hlat Hb)
    as (g & evs' & Hg).
  rewrite Hq in Hg. injection Hg as -> _.
  exists g, evs. split; [exact He | exact Hq].
Qed.

(** X5. Construction with [lon] or [lat] missing from either grid raises
    [KeyError] with the world untouched: no grid is built, nothing is
    printed and no file is read, written or removed. *)
Theorem init_missing_coordinate (ds_in ds_out : gmap string ndarray)
    (meth : string) (peri : bool) (fname : option string) (reuse : bool)
    (w : world) :
  ds_in !! "lon" = None \/ ds_in !! "lat" = None \/
  ds_out !! "lon" = None \/ ds_out !! "lat" = None ->
  __init__ ds_in ds_out meth peri fname reuse w = (Raise KeyError, w).
Proof.
  intros Hmiss. unfold __init__.
  destruct (ds_out !! "lon") as [lon_out |] eqn:Hlo.
  2: { apply bind_raise. unfold lift, ds_getitem. rewrite Hlo. reflexivity. }
  rewrite (bind_eq _ _ w lon_out w)
    by (unfold lift, ds_getitem; rewrite Hlo; reflexivity).
  destruct (ds_out !! "lat") as [lat_out |] eqn:Hla.
  2: { apply bind_raise. unfold lift, ds_getitem. rewrite Hla. reflexivity. }
  rewrite (bind_eq _ _ w lat_out w)
    by (unfold lift, ds_getitem; rewrite Hla; reflexivity).
  destruct (decide (meth = "conservative")); apply bind_raise;
    apply ds_to_ESMFgrid_missing_coordinate;
    destruct Hmiss as [H | [H | [H | H]]]; auto; discriminate.
Qed.

(** X6. Conservative construction from grids that have their centres but
    lack one of [lon_b], [lat_b] raises [KeyError]; by then no file has been
    touched and the engine has not been asked for weights. *)
Theorem init_conservative_missing_bounds
    (ds_in ds_out : gmap string ndarray) (peri : bool)
    (fname : option string) (reuse : bool) (w : world) :
  is_Some (ds_in !! "lon") -> is_Some (ds_in !! "lat") ->
  is_Some (ds_out !! "lon") -> is_Some (ds_out !! "lat") ->
  ds_in !! "lon_b" = None \/ ds_in !! "lat_b" = None \/
  ds_out !! "lon_b" = None \/ ds_out !! "lat_b" = None ->
  exists evs,
    __init__ ds_in ds_out "conservative" peri fname reuse w
    = (Raise KeyError, World (files w) (log w ++ evs)) /\
    engine_invocations evs = 0.
Proof.
  intros [lon_in Hli] [lat_in Hti] [lon_out Hlo] [lat_out Hto] Hmiss.
  unfold __init__.
  rewrite (bind_eq _ _ w lon_out w)
    by (unfold lift, ds_getitem; rewrite Hlo; reflexivity).
  rewrite (bind_eq _ _ w lat_out w)
    by (unfold lift, ds_getitem; rewrite Hto; reflexivity).
  rewrite decide_True by reflexivity.
  destruct (ds_in !! "lon_b") as [lon_b |] eqn:H1;
    [destruct (ds_in !! "lat_b") as [lat_b |] eqn:H2 |].
  - destruct (ds_to_ESMFgrid_quiet_returns ds_in true (Some false) lon_in lat_in
                Hli Hti) as (g & evs1 & He1 & Hg).
    { intros _. rewrite H1, H2. split; eauto. }
    rewrite (bind_eq _ _ _ _ _ (Hg w)).
    assert (Hm : ds_out !! "lon_b" = None \/ ds_out !! "lat_b" = None).
    { destruct Hmiss as [H | [H | [H | H]]]; try discriminate; auto. }
    rewrite (bind_raise _ _ _ _ _
               (ds_to_ESMFgrid_missing_bounds ds_out None _ lon_out lat_out
                  Hlo Hto Hm)).
    simpl. rewrite <- app_assoc. eexists. split; [reflexivity |].
    rewrite engine_invocations_app, He1. reflexivity.
  - eexists. split.
    + apply bind_raise.
      apply (ds_to_ESMFgrid_missing_bounds ds_in _ w lon_in lat_in Hli Hti).
      rewrite H1, H2. auto.
    + reflexivity.
  - eexists. split.
    + apply bind_raise.
      apply (ds_to_ESMFgrid_missing_bounds ds_in _ w lon_in lat_in Hli Hti).
      rewrite H1. auto.
    + reflexivity.
Qed.

(** X7. For a method other than [conservative], construction reads
    nothing but [lon] and [lat]: two pairs of grid specifications that
    agree on these keys give the same outcome, whatever else they hold. *)
Theorem init_ignores_other_keys (ds_in ds_out ds_in' ds_out' : gmap string ndarray)
    (meth : string) (peri : bool) (fname : option string) (reuse : bool)
    (w : world) :
  meth <> "conservative" ->
  ds_in' !! "lon" = ds_in !! "lon" -> ds_in' !! "lat" = ds_in !! "lat" ->
  ds_out' !! "lon" = ds_out !! "lon" -> ds_out' !! "lat" = ds_out !! "lat" ->
  __init__ ds_in' ds_out' meth peri fname reuse w
  = __init__ ds_in ds_out meth peri fname reuse w.
Proof.
  intros Hm H1 H2 H3 H4.
  unfold __init__, ds_to_ESMFgrid, ds_getitem.
  rewrite H1, H2, H3, H4. rewrite decide_False by exact Hm. reflexivity.
Qed.

(** ** Construction: where the weights come from *)

Lemma init_tail_reuse (self0 : Regridder) (w : world) (ts : list triplet) :
  files w !! filename self0 = Some ts ->
  reuse_weights self0 = true ->
  forallb (in_range (N_in self0) (N_out self0)) ts = true ->
  init_tail self0 w
  = (Ok (set_A self0 (SpMatrix (N_out self0) (N_in self0) ts)),
     World (files w)
       (log w ++ reuse_events self0
          ++ [ReadWeights (filename self0) (N_in self0) (N_out self0)])).
Proof.
  intros Hf Hreuse Hrange. unfold init_tail.
  rewrite (bind_eq _ _ w tt (World (files w) (log w ++ reuse_events self0)))
    by (rewrite write_weight_file_cases, Hf, Hreuse; reflexivity).
  unfold bind at 1. rewrite read_weights_cases. simpl.
  rewrite Hf, Hrange. rewrite <- app_assoc. reflexivity.
Qed.

Lemma init_weight_file_facts
    (ds_in ds_out : gmap string ndarray) (meth : string) (peri : bool)
    (fname : option string) (reuse : bool) (w w' : world) (self : Regridder) :
  __init__ ds_in ds_out meth peri fname reuse w = (Ok self, w') ->
  files w' !! filename self = Some (entries (A self)) /\
  (forall f, f <> filename self -> files w' !! f = files w !! f) /\
  nrows (A self) = Ny_out self * Nx_out self /\
  ncols (A self) = Ny_in self * Nx_in self /\
  (forall r c v, In (r, c, v) (entries (A self)) ->
                 r < nrows (A self) /\ c < ncols (A self)).
Proof.
  intros Hinit.
  pose proof (init_inv _ _ _ _ _ _ _ _ _ Hinit)
    as (_ & _ & _ & _ & _ & _ & _ & _ & _ & (Hin & Hout & Hr & Hc) & _).
  apply init_Ok_split in Hinit as (self0 & evs & _ & _ & Htail).
  apply init_tail_cases in Htail as (ts & -> & Hrange & Hcases).
  simpl in *.
  split; [| split; [| split; [lia | split; [lia |]]]].
  - destruct (files w !! filename self0) as [old |] eqn:Hf;
      [destruct (reuse_weights self0) |]; destruct Hcases as [Hts ->]; simpl.
    + rewrite Hts. exact Hf.
    + apply lookup_insert_eq.
    + apply lookup_insert_eq.
  - intros f Hne.
    destruct (files w !! filename self0) as [old |] eqn:Hf;
      [destruct (reuse_weights self0) |]; destruct Hcases as [Hts ->]; simpl.
    + reflexivity.
    + rewrite lookup_insert_ne, lookup_delete_ne by congruence. reflexivity.
    + rewrite lookup_insert_ne by congruence. reflexivity.
  - intros r c v Hin'.
    rewrite forallb_forall in Hrange. specialize (Hrange _ Hin').
    unfold in_range in Hrange. simpl in Hrange.
    apply andb_prop in Hrange as [H1 H2].
    apply bool_decide_eq_true_1 in H1. apply bool_decide_eq_true_1 in H2.
    lia.
Qed.

(** X8. After construction the weight file is on disk under the
    regridder's file name and holds exactly the triplets of the matrix in
    memory; no other file has changed; the matrix has as many rows as the
    output grid has cells, as many columns as the input grid has cells, and
    every triplet lies within it. *)
Theorem init_weight_file_matches_matrix
    (ds_in ds_out : gmap string ndarray) (meth : string) (peri : bool)
    (fname : option string) (reuse : bool) (w w' : world) (self : Regridder) :
  __init__ ds_in ds_out meth peri fname reuse w = (Ok self, w') ->
  files w' !! filename self = Some (entries (A self)) /\
  (forall f, f <> filename self -> files w' !! f = files w !! f) /\
  nrows (A self) = Ny_out self * Nx_out self /\
  ncols (A self) = Ny_in self * Nx_in self /\
  (forall r c v, In (r, c, v) (entries (A self)) ->
                 r < nrows (A self) /\ c < ncols (A self)).
Proof. apply init_weight_file_facts. Qed.

(** X9. Construction without [reuse_weights], or with no weight file
    under the regridder's file name, asks the engine for weights exactly
    once: the matrix and the file hold what the engine computed, whatever the
    file held before. *)
Theorem init_fresh_weights
    (ds_in ds_out : gmap string ndarray) (meth : string) (peri : bool)
    (fname : option string) (reuse : bool) (w w' : world) (self : Regridder) :
  __init__ ds_in ds_out meth peri fname reuse w = (Ok self, w') ->
  reuse = false \/ files w !! filename self = None ->
  entries (A self) = built_weights self /\
  files w' = <[filename self := built_weights self]> (files w) /\
  exists evs, log w' = log w ++ evs /\ engine_invocations evs = 1.
Proof.
  intros Hinit Hfresh.
  pose proof (init_inv _ _ _ _ _ _ _ _ _ Hinit)
    as (_ & _ & _ & _ & _ & _ & _ & _ & _ & _ & _ & _ & _ & Hreuse & _).
  apply init_Ok_split in Hinit as (self0 & evs & He & _ & Htail).
  apply init_tail_cases in Htail as (ts & -> & Hrange & Hcases).
  simpl in *. unfold built_weights in *. simpl.
  destruct (files w !! filename self0) as [old |] eqn:Hf.
  - destruct Hfresh as [-> | Hnone]; [| discriminate].
    rewrite Hreuse in Hcases. destruct Hcases as [-> ->]. simpl.
    split; [reflexivity |]. split; [apply insert_delete_eq |].
    eexists. split; [rewrite <- app_assoc; reflexivity |].
    rewrite !engine_invocations_app, He. reflexivity.
  - destruct Hcases as [-> ->]. simpl.
    split; [reflexivity |]. split; [reflexivity |].
    eexists. split; [rewrite <- app_assoc; reflexivity |].
    rewrite !engine_invocations_app, He. reflexivity.
Qed.

Lemma init_reuse_facts
    (ds_in ds_out : gmap string ndarray) (meth : string) (peri : bool)
    (fname : option string) (w w' : world) (self : Regridder)
    (old : list triplet) :
  __init__ ds_in ds_out meth peri fname true w = (Ok self, w') ->
  files w !! filename self = Some old ->
  entries (A self) = old /\
  files w' = files w /\
  exists evs, log w' = log w ++ evs /\ engine_invocations evs = 0.
Proof.
  intros Hinit Hold.
  pose proof (init_inv _ _ _ _ _ _ _ _ _ Hinit)
    as (_ & _ & _ & _ & _ & _ & _ & _ & _ & _ & _ & _ & _ & Hreuse & _).
  apply init_Ok_split in Hinit as (self0 & evs & He & _ & Htail).
  apply init_tail_cases in Htail as (ts & -> & Hrange & Hcases).
  simpl in *. rewrite Hold, Hreuse in Hcases. destruct Hcases as [-> ->]. simpl.
  split; [reflexivity |]. split; [reflexivity |].
  eexists. split; [rewrite <- app_assoc; reflexivity |].
  rewrite !engine_invocations_app, He. reflexivity.
Qed.

(** X10. Construction with [reuse_weights] and a weight file already
    under the regridder's file name loads that file as it is: the matrix
    holds the file's triplets, the files are unchanged and the engine is
    never asked for weights. *)
Theorem init_reuse_loads_existing_file
    (ds_in ds_out : gmap string ndarray) (meth : string) (peri : bool)
    (fname : option string) (w w' : world) (self : Regridder)
    (old : list triplet) :
  __init__ ds_in ds_out meth peri fname true w = (Ok self, w') ->
  files w !! filename self = Some old ->
  entries (A self) = old /\
  files w' = files w /\
  exists evs, log w' = log w ++ evs /\ engine_invocations evs = 0.
Proof. apply init_reuse_facts. Qed.

(** X11. Constructing a second time with the same arguments and
    [reuse_weights] gives the same regridder again, with the files unchanged
    and without asking the engine for weights. *)
Theorem init_twice_reuses
    (ds_in ds_out : gmap string ndarray) (meth : string) (peri : bool)
    (fname : option string) (w w' : world) (self : Regridder) :
  __init__ ds_in ds_out meth peri fname true w = (Ok self, w') ->
  exists w'' evs,
    __init__ ds_in ds_out meth peri fname true w' = (Ok self, w'') /\
    files w'' = files w' /\
    log w'' = log w' ++ evs /\
    engine_invocations evs = 0.
Proof.
  intros Hinit.
  pose proof (init_inv _ _ _ _ _ _ _ _ _ Hinit)
    as (_ & _ & _ & _ & _ & _ & _ & _ & _ & _ & _ & _ & _ & Hreuse & _).
  apply init_Ok_split in Hinit as (self0 & evs & He & Hall & Htail).
  apply init_tail_cases in Htail as (ts & -> & Hrange & Hcases).
  simpl in Hreuse.
  assert (Hfile : files w' !! filename self0 = Some ts).
  { simpl in Hcases.
    destruct (files w !! filename self0) as [old |] eqn:Hf;
      [rewrite Hreuse in Hcases |]; destruct Hcases as [Hts ->]; simpl.
    - rewrite Hts. exact Hf.
    - apply lookup_insert_eq. }
  eexists. eexists. split.
  - rewrite Hall. apply init_tail_reuse; [exact Hfile | exact Hreuse | exact Hrange].
  - simpl. split; [reflexivity |]. split.
    + rewrite <- app_assoc. reflexivity.
    + rewrite !engine_invocations_app, He. reflexivity.
Qed.

(** X17. The default file name does not tell two grids of the same sizes
    apart: after a construction with the default name, a construction with
    [reuse_weights] for any other pair of grids of the same sizes, method
    and periodic flag loads the first regridder's matrix, with the files
    unchanged and without asking the engine for weights. *)
Theorem init_reuse_across_grids
    (ds_in ds_out ds_in' ds_out' : gmap string ndarray) (meth : string)
    (peri reuse : bool) (w w1 w2 : world) (self1 self2 : Regridder) :
  __init__ ds_in ds_out meth peri None reuse w = (Ok self1, w1) ->
  __init__ ds_in' ds_out' meth peri None true w1 = (Ok self2, w2) ->
  Ny_in self2 = Ny_in self1 -> Nx_in self2 = Nx_in self1 ->
  Ny_out self2 = Ny_out self1 -> Nx_out self2 = Nx_out self1 ->
  filename self2 = filename self1 /\
  A self2 = A self1 /\
  files w2 = files w1 /\
  exists evs, log w2 = log w1 ++ evs /\ engine_invocations evs = 0.
Proof.
  intros Hinit1 Hinit2 Hyi Hxi Hyo Hxo.
  pose proof (init_inv _ _ _ _ _ _ _ _ _ Hinit1)
    as (_ & _ & _ & _ & _ & _ & _ & _ & _ & _ & Hm1 & _ & Hp1 & _ & Hf1 & _).
  pose proof (init_inv _ _ _ _ _ _ _ _ _ Hinit2)
    as (_ & _ & _ & _ & _ & _ & _ & _ & _ & _ & Hm2 & _ & Hp2 & _ & Hf2 & _).
  assert (Hname : filename self2 = filename self1).
  { rewrite Hf1, Hf2. unfold _get_default_filename.
    rewrite Hm1, Hm2, Hp1, Hp2, Hyi, Hxi, Hyo, Hxo. reflexivity. }
  destruct (init_weight_file_facts _ _ _ _ _ _ _ _ _ Hinit1)
    as (Hdisk & _ & Hr1 & Hc1 & _).
  destruct (init_weight_file_facts _ _ _ _ _ _ _ _ _ Hinit2)
    as (_ & _ & Hr2 & Hc2 & _).
  rewrite <- Hname in Hdisk.
  destruct (init_reuse_facts _ _ _ _ _ _ _ _ _ Hinit2 Hdisk)
    as (Hentries & Hfiles & Hevs).
  split; [exact Hname |]. split; [| split; assumption].
  destruct (A self1) as [r1 c1 e1], (A self2) as [r2 c2 e2]. simpl in *.
  f_equal; [rewrite Hr2, Hr1 | rewrite Hc2, Hc1 | assumption];
    rewrite ?Hyi, ?Hxi, ?Hyo, ?Hxo; reflexivity.
Qed.

(** ** File names *)

Lemma all_digits_string_of_uint (d : Decimal.uint) :
  all_digits (NilEmpty.string_of_uint d) = true.
Proof. induction d; simpl; auto. Qed.

Lemma str_of_nat_digits (n : nat) : all_digits (str_of_nat n) = true.
Proof. apply all_digits_string_of_uint. Qed.

Lemma str_of_nat_inj (a b : nat) : str_of_nat a = str_of_nat b -> a = b.
Proof.
  unfold str_of_nat. intros H.
  apply (f_equal NilEmpty.uint_of_string) in H.
  rewrite !NilEmpty.usu in H. injection H as H.
  apply (f_equal Nat.of_uint) in H.
  rewrite !Unsigned.of_to in H. exact H.
Qed.

Lemma append_inj_l (m a b : string) : (m ++ a = m ++ b)%string -> a = b.
Proof.
  induction m as [| c m IH]; intros H; [exact H |].
  apply IH. change (String c (m ++ a) = String c (m ++ b))%string in H.
  injection H as H. exact H.
Qed.

Lemma split_digits (d1 d2 : string) (c1 c2 : Ascii.ascii) (r1 r2 : string) :
  all_digits d1 = true -> all_digits d2 = true ->
  is_digit c1 = false -> is_digit c2 = false ->
  (d1 ++ String c1 r1 = d2 ++ String c2 r2)%string ->
  d1 = d2 /\ c1 = c2 /\ r1 = r2.
Proof.
  revert d2. induction d1 as [| a d1 IH]; intros [| b d2] H1 H2 Hc1 Hc2 H.
  - change (String c1 r1 = String c2 r2) in H. injection H as -> ->. auto.
  - change (String c1 r1 = String b (d2 ++ String c2 r2))%string in H.
    injection H as -> _. simpl in H2. rewrite Hc1 in H2. discriminate.
  - change (String a (d1 ++ String c1 r1) = String c2 r2)%string in H.
    injection H as -> _. simpl in H1. rewrite Hc2 in H1. discriminate.
  - change (String a (d1 ++ String c1 r1) = String b (d2 ++ String c2 r2))%string in H.
    injection H as -> H. simpl in H1, H2.
    apply andb_prop in H1 as [_ H1]. apply andb_prop in H2 as [_ H2].
    destruct (IH d2 H1 H2 Hc1 Hc2 H) as (-> & -> & ->). auto.
Qed.

(** X12. For one method, the default file name determines the four grid
    sizes and the periodic flag: two default names are equal exactly when
    these agree. *)
Theorem default_filename_injective (self1 self2 : Regridder) :
  method self1 = method self2 ->
  (_get_default_filename self1 = _get_default_filename self2 <->
   Ny_in self1 = Ny_in self2 /\ Nx_in self1 = Nx_in self2 /\
   Ny_out self1 = Ny_out self2 /\ Nx_out self1 = Nx_out self2 /\
   periodic self1 = periodic self2).
Proof.
  intros Hm. unfold _get_default_filename. rewrite Hm. split.
  - intros H.
    assert (H' : (str_of_nat (Ny_in self1) ++ "x" ++ str_of_nat (Nx_in self1)
                  ++ "_" ++ str_of_nat (Ny_out self1) ++ "x"
                  ++ str_of_nat (Nx_out self1)
                  ++ (if periodic self1 then "_peri.nc" else ".nc")
                  = str_of_nat (Ny_in self2) ++ "x" ++ str_of_nat (Nx_in self2)
                  ++ "_" ++ str_of_nat (Ny_out self2) ++ "x"
                  ++ str_of_nat (Nx_out self2)
                  ++ (if periodic self2 then "_peri.nc" else ".nc"))%string).
    { apply (append_inj_l "_"). apply (append_inj_l (method self2)).
      destruct (periodic self1), (periodic self2);
        rewrite !append_assoc in H; exact H. }
    clear H.
    apply split_digits in H' as (Ha & _ & H');
      [| apply str_of_nat_digits | apply str_of_nat_digits | reflexivity | reflexivity].
    apply split_digits in H' as (Hb & _ & H');
      [| apply str_of_nat_digits | apply str_of_nat_digits | reflexivity | reflexivity].
    apply split_digits in H' as (Hc & _ & H');
      [| apply str_of_nat_digits | apply str_of_nat_digits | reflexivity | reflexivity].
    assert (Hd : str_of_nat (Nx_out self1) = str_of_nat (Nx_out self2)
                 /\ periodic self1 = periodic self2).
    { destruct (periodic self1), (periodic self2);
        apply split_digits in H' as (Hd & Hc' & Hr);
        try apply str_of_nat_digits; try reflexivity;
        try discriminate; auto. }
    destruct Hd as [Hd Hp].
    apply str_of_nat_inj in Ha, Hb, Hc, Hd. auto.
  - intros (-> & -> & -> & -> & ->). reflexivity.
Qed.

(** ** Removing the weight file *)

Lemma clean_weight_file_cases (self : Regridder) (w : world) :
  clean_weight_file self w =
  match files w !! filename self with
  | Some _ =>
      (Ok tt,
       World (delete (filename self) (files w))
         (log w ++
          [Print ("Remove file " ++ filename self)%string;
           OsRemove (filename self);
           Print ("You can still use the regridder because the weights "
                  ++ "are already read into memory.")%string]))
  | None =>
      (Ok tt,
       World (files w)
         (log w ++ [Print ("File " ++ filename self ++ " is already removed.")%string]))
  end.
Proof.
  unfold clean_weight_file, bind, os_path_exists, print, emit, os_remove.
  destruct (files w !! filename self) as [ts |] eqn:Hf.
  - rewrite bool_decide_eq_true_2 by eauto. simpl. rewrite Hf. simpl.
    rewrite <- !app_assoc. reflexivity.
  - rewrite bool_decide_eq_false_2 by (intros [? ?]; discriminate). reflexivity.
Qed.

(** X13. [clean_weight_file] leaves every other file as it is, and a
    second call only reports that the file is already removed. *)
Theorem clean_weight_file_twice (self : Regridder) (w w1 : world) :
  clean_weight_file self w = (Ok tt, w1) ->
  (forall f, f <> filename self -> files w1 !! f = files w !! f) /\
  clean_weight_file self w1
  = (Ok tt,
     World (files w1)
       (log w1 ++ [Print ("File " ++ filename self ++ " is already removed.")%string])).
Proof.
  rewrite clean_weight_file_cases. intros Hrun.
  assert (Hfiles : files w1 = delete (filename self) (files w)).
  { destruct (files w !! filename self) eqn:Hf; injection Hrun as <-; simpl;
      [reflexivity | symmetry; apply delete_id; exact Hf]. }
  split.
  - intros f Hne. rewrite Hfiles. apply lookup_delete_ne. congruence.
  - rewrite clean_weight_file_cases, Hfiles, lookup_delete_eq. reflexivity.
Qed.

(** X14. After [clean_weight_file], [_write_weight_file] creates the file
    again through the engine, whether or not [reuse_weights] is set. *)
Theorem write_after_clean_rebuilds (self : Regridder) (w w1 : world) :
  clean_weight_file self w = (Ok tt, w1) ->
  _write_weight_file self w1
  = (Ok tt,
     World (<[filename self := built_weights self]> (files w1))
       (log w1 ++
        [Print ("Create weight file: " ++ filename self)%string;
         EsmfRegridBuild (_grid_in self) (_grid_out self) (method self)
           (filename self);
         EsmfRegridFinalize])).
Proof.
  rewrite clean_weight_file_cases. intros Hrun.
  assert (Hfiles : files w1 !! filename self = None).
  { destruct (files w !! filename self) eqn:Hf; injection Hrun as <-; simpl;
      [apply lookup_delete_eq | exact Hf]. }
  rewrite write_weight_file_cases, Hfiles. reflexivity.
Qed.

(** ** Labelled arrays *)

(** X16. A DataArray whose values do not end in [(Ny_in, Nx_in)] makes
    [regrid_dataarray] and [__call__] raise the assertion error with the
    world untouched, whatever its dimension names and coordinates. *)
Theorem regrid_dataarray_shape_error_first (self : Regridder) (dr_in : DataArray)
    (w : world) :
  slice_last2 (shape (values dr_in)) <> [Ny_in self; Nx_in self] ->
  regrid_dataarray self dr_in w = (Raise AssertionError, w) /\
  __call__ self (PyDataArray dr_in) w = (Raise AssertionError, w).
Proof.
  intros Hne.
  assert (Hrun : regrid_dataarray self dr_in w = (Raise AssertionError, w)).
  { unfold regrid_dataarray. apply bind_raise.
    apply regrid_numpy_mismatch. exact Hne. }
  split; [exact Hrun |]. simpl. apply bind_raise. exact Hrun.
Qed.

(** ** What the output of [regrid_dataarray] can hold *)

(** X15. Whenever [regrid_dataarray] returns, the output keeps the
    dimension names and the name of the input, its only attribute is
    [regrid_method], and each of its coordinates is the output grid's [lon]
    or [lat] over the last two dimension names, or what [dr_in.coords[dim]]
    gives for a leading dimension, or a coordinate carried by that.  The
    attributes of the input are not carried over. *)
Theorem regrid_dataarray_output_metadata (self : Regridder) (dr_in dr_out : DataArray)
    (w w' : world) :
  regrid_dataarray self dr_in w = (Ok dr_out, w') ->
  dims dr_out = dims dr_in /\
  name dr_out = name dr_in /\
  attrs dr_out = {["regrid_method" := method self]} /\
  forall k v,
    coords dr_out !! k = Some v ->
    (k = "lon" /\
     v = MkCoordVar (slice_last2 (dims dr_in)) (CoordArray (_lon_out self))) \/
    (k = "lat" /\
     v = MkCoordVar (slice_last2 (dims dr_in)) (CoordArray (_lat_out self))) \/
    exists dim c,
      dim ∈ slice_but_last2 (dims dr_in) /\
      coords_getitem dr_in dim = Ok c /\
      (k = dim /\ v = co_var c \/ k <> dim /\ co_coords c !! k = Some v).
Proof.
  intros Hrun. apply regrid_dataarray_inv in Hrun as (_ & -> & _).
  cbn [values dims name coords attrs].
  split; [reflexivity |]. split; [reflexivity |]. split; [reflexivity |].
  intros k v Hk. apply copy_coords_bound in Hk as [Hk | Hk].
  - unfold grid_coords in Hk.
    destruct (decide (k = "lat")) as [-> | Hlat].
    { rewrite lookup_insert_eq in Hk. injection Hk as <-. right. left. auto. }
    rewrite lookup_insert_ne in Hk by congruence.
    destruct (decide (k = "lon")) as [-> | Hlon].
    { rewrite lookup_insert_eq in Hk. injection Hk as <-. left. auto. }
    rewrite lookup_insert_ne, lookup_empty in Hk by congruence. discriminate.
  - right. right. exact Hk.
Qed.

End FrontendExtras.

(** * The worked scenario *)

Section ScenarioProperties.

#[local] Existing Instance Z_scalar.
#[local] Existing Instance corner_engine.

Lemma scenario_init :
  __init__ ds_in_2d ds_out_2d "bilinear" false None false world0
  = (Ok scenario_regridder, scenario_world).
Proof. vm_compute. reflexivity. Qed.

Lemma conservative_init :
  __init__ ds_in_bounds ds_out_bounds "conservative" true None false world0
  = (Ok conservative_regridder, conservative_world).
Proof. vm_compute. reflexivity. Qed.

(** The scenario of the specification: the default file name is
    [bilinear_3x4_2x2.nc] and an array of shape [(5, 3, 4)] is regridded to
    one of shape [(5, 2, 2)]. *)
Example scenario_filename_and_shape :
  filename scenario_regridder = "bilinear_3x4_2x2.nc" /\
  exists outdata w',
    regrid_numpy scenario_regridder (arange [5; 3; 4]) scenario_world
    = (Ok outdata, w') /\
    shape outdata = [5; 2; 2] /\
    data outdata = [0; 3; 8; 11; 12; 15; 20; 23; 24; 27; 32; 35; 36; 39; 44; 47;
                    48; 51; 56; 59]%Z.
Proof.
  split; [reflexivity |]. eexists. eexists.
  split; [vm_compute; reflexivity |]. split; reflexivity.
Qed.

Lemma regrid_numpy_shape_consistency_witness :
  (exists outdata w',
     regrid_numpy scenario_regridder (arange [5; 3; 4]) scenario_world
     = (Ok outdata, w') /\
     __call__ scenario_regridder (PyNdarray (arange [5; 3; 4])) scenario_world
     = (Ok (PyNdarray outdata), w') /\
     shape outdata = [5; 2; 2] /\
     wf_ndarray outdata) /\
  (exists outdata w',
     regrid_numpy scenario_regridder (arange [3; 4]) scenario_world
     = (Ok outdata, w') /\
     shape outdata = [2; 2]).
Proof.
  split.
  - apply (proj1 (regrid_numpy_shape_consistency ds_in_2d ds_out_2d "bilinear"
                    false None false world0 scenario_world scenario_regridder
                    scenario_init) [5] (arange [5; 3; 4]) scenario_world).
    reflexivity.
  - apply (proj2 (regrid_numpy_shape_consistency ds_in_2d ds_out_2d "bilinear"
                    false None false world0 scenario_world scenario_regridder
                    scenario_init) (arange [3; 4]) scenario_world).
    reflexivity.
Defined.

Lemma regrid_numpy_trailing_shape_check_witness :
  (regrid_numpy scenario_regridder (arange [5; 4; 3]) scenario_world
   = (Raise AssertionError, scenario_world) /\
   __call__ scenario_regridder (PyNdarray (arange [5; 4; 3])) scenario_world
   = (Raise AssertionError, scenario_world)) /\
  (regrid_numpy scenario_regridder (arange [5; 3; 4]) scenario_world
   = apply_weights (SpMatrix 4 12 corner_weights) (arange [5; 3; 4]) 2 2
       scenario_world /\
   exists outdata w',
     regrid_numpy scenario_regridder (arange [5; 3; 4]) scenario_world
     = (Ok outdata, w') /\
     __call__ scenario_regridder (PyNdarray (arange [5; 3; 4])) scenario_world
     = (Ok (PyNdarray outdata), w')).
Proof.
  split.
  - apply (proj1 (regrid_numpy_trailing_shape_check ds_in_2d ds_out_2d "bilinear"
                    false None false world0 scenario_world scenario_regridder
                    scenario_init (arange [5; 4; 3]) scenario_world)).
    simpl. discriminate.
  - apply (proj2 (regrid_numpy_trailing_shape_check ds_in_2d ds_out_2d "bilinear"
                    false None false world0 scenario_world scenario_regridder
                    scenario_init (arange [5; 3; 4]) scenario_world)).
    reflexivity.
Defined.

Lemma sub_2d_input_rejected_witness :
  length (slice_last2 (shape (arange [4]))) < 2 /\
  regrid_numpy scenario_regridder (arange [4]) scenario_world
  = (Raise AssertionError, scenario_world) /\
  __call__ scenario_regridder (PyNdarray (arange [4])) scenario_world
  = (Raise AssertionError, scenario_world).
Proof.
  apply (sub_2d_input_rejected scenario_regridder (arange [4]) scenario_world).
  unfold ndim. simpl. lia.
Defined.

Lemma default_filename_scheme_witness :
  exists lon_in lon_out,
    ds_in_2d !! "lon" = Some lon_in /\ shape lon_in = [3; 4] /\
    ds_out_2d !! "lon" = Some lon_out /\ shape lon_out = [2; 2] /\
    periodic scenario_regridder = false /\
    filename scenario_regridder = "bilinear_3x4_2x2.nc".
Proof.
  apply (default_filename_scheme ds_in_2d ds_out_2d "bilinear" false false
           world0 scenario_world scenario_regridder).
  vm_compute. reflexivity.
Defined.


(** C3 on the code. [as_2d_mesh] expands a longitude of length 4 and a
    latitude of length 3 to the two meshes of shape [(3, 4)] and raises when
    one of the two is 1D and the other 2D, and construction from the two
    meshes succeeds; construction from the 1D arrays
    themselves never calls [as_2d_mesh]: the engine is given the 1D arrays
    as they are, and the unpacking of [ds_in['lon'].shape] into two sizes
    raises [ValueError]. *)
Theorem init_1d_coords_not_expanded :
  as_2d_mesh lon_1d lat_1d = Ok (lon_2d, lat_2d) /\
  shape lon_2d = [3; 4] /\ shape lat_2d = [3; 4] /\
  as_2d_mesh lon_1d lat_2d = Raise ValueError /\
  as_2d_mesh lon_2d lat_1d = Raise ValueError /\
  __init__ ds_in_2d ds_out_2d "bilinear" false None false world0
  = (Ok scenario_regridder, scenario_world) /\
  __init__ ds_in_1d ds_out_2d "bilinear" false None false world0
  = (Raise ValueError,
     World ∅ [EsmfGrid lon_1d lat_1d (Some false);
              EsmfGrid (transpose lon_out_2d) (transpose lat_out_2d) None]).
Proof.
  do 5 (split; [reflexivity |]).
  split; [exact scenario_init |]. vm_compute. reflexivity.
Qed.

(** ** The metadata of a regridded DataArray *)



End ScenarioProperties.

(** * Further properties on the worked scenario *)

Section ScenarioExtras.

#[local] Existing Instance Z_scalar.
#[local] Existing Instance corner_engine.

Lemma as_2d_mesh_1d_mesh_witness :
  exists lon2 lat2,
    as_2d_mesh lon_1d lat_1d = Ok (lon2, lat2) /\
    shape lon2 = [3; 4] /\ shape lat2 = [3; 4] /\
    wf_ndarray lon2 /\ wf_ndarray lat2 /\
    forall i j d, i < 3 -> j < 4 ->
      nth (i * 4 + j) (data lon2) d = nth j (data lon_1d) d /\
      nth (i * 4 + j) (data lat2) d = nth i (data lat_1d) d.
Proof.
  apply (as_2d_mesh_1d_mesh lon_1d lat_1d 4 3); reflexivity.
Defined.

Lemma as_2d_mesh_idempotent_witness :
  ndim lon_2d = 2 /\ ndim lat_2d = 2 /\
  as_2d_mesh lon_2d lat_2d = Ok (lon_2d, lat_2d).
Proof.
  apply (as_2d_mesh_idempotent lon_1d lat_1d lon_2d lat_2d). reflexivity.
Defined.

Lemma ds_to_ESMFgrid_transposed_witness :
  exists lonT latT,
    shape lonT = [4; 3] /\ shape latT = [4; 3] /\
    wf_ndarray lonT /\ wf_ndarray latT /\
    (forall i j d, i < 3 -> j < 4 ->
       nth (j * 3 + i) (data lonT) d = nth (i * 4 + j) (data lon_2d) d /\
       nth (j * 3 + i) (data latT) d = nth (i * 4 + j) (data lat_2d) d) /\
    files (World ∅ [EsmfGrid (transpose lon_2d) (transpose lat_2d) (Some false)])
    = files world0 /\
    log (World ∅ [EsmfGrid (transpose lon_2d) (transpose lat_2d) (Some false)])
    = log world0 ++ [EsmfGrid lonT latT (Some false)].
Proof.
  apply (ds_to_ESMFgrid_transposed ds_in_2d false (Some false) world0
           (World ∅ [EsmfGrid (transpose lon_2d) (transpose lat_2d) (Some false)])
           scenario_grid_in lon_2d lat_2d 3 4); reflexivity.
Defined.

Lemma ds_to_ESMFgrid_missing_key_witness :
  ds_to_ESMFgrid ∅ false None world0 = (Raise KeyError, world0) /\
  ds_to_ESMFgrid ds_in_2d true None world0
  = (Raise KeyError,
     World (files world0)
       (log world0 ++ [EsmfGrid (transpose lon_2d) (transpose lat_2d) None])).
Proof.
  split.
  - apply (proj1 (ds_to_ESMFgrid_missing_key ∅ false None world0)).
    left. reflexivity.
  - apply (proj2 (ds_to_ESMFgrid_missing_key ds_in_2d true None world0)
             lon_2d lat_2d); try reflexivity.
    left. reflexivity.
Defined.

Lemma init_missing_coordinate_witness :
  __init__ ∅ ds_out_2d "bilinear" false None false world0
  = (Raise KeyError, world0).
Proof.
  apply (init_missing_coordinate ∅ ds_out_2d "bilinear" false None false world0).
  left. reflexivity.
Defined.

Lemma init_conservative_missing_bounds_witness :
  exists evs,
    __init__ ds_in_2d ds_out_2d "conservative" true None false world0
    = (Raise KeyError, World (files world0) (log world0 ++ evs)) /\
    engine_invocations evs = 0.
Proof.
  apply (init_conservative_missing_bounds ds_in_2d ds_out_2d true None false
           world0); try (eexists; reflexivity).
  left. reflexivity.
Defined.

Lemma init_ignores_other_keys_witness :
  __init__ ds_in_bounds ds_out_bounds "bilinear" false None false world0
  = __init__ ds_in_2d ds_out_2d "bilinear" false None false world0.
Proof.
  apply (init_ignores_other_keys ds_in_2d ds_out_2d ds_in_bounds ds_out_bounds
           "bilinear" false None false world0);
    [discriminate | reflexivity | reflexivity | reflexivity | reflexivity].
Defined.

Lemma init_weight_file_matches_matrix_witness :
  files scenario_world !! filename scenario_regridder
  = Some (entries (A scenario_regridder)) /\
  (forall f, f <> filename scenario_regridder ->
             files scenario_world !! f = files world0 !! f) /\
  nrows (A scenario_regridder) = 2 * 2 /\
  ncols (A scenario_regridder) = 3 * 4 /\
  (forall r c v, In (r, c, v) (entries (A scenario_regridder)) ->
                 r < nrows (A scenario_regridder) /\
                 c < ncols (A scenario_regridder)).
Proof.
  apply (init_weight_file_matches_matrix ds_in_2d ds_out_2d "bilinear" false
           None false world0 scenario_world scenario_regridder).
  vm_compute. reflexivity.
Defined.

Lemma init_fresh_weights_witness :
  entries (A scenario_regridder) = built_weights scenario_regridder /\
  files scenario_world
  = <[filename scenario_regridder := built_weights scenario_regridder]>
      (files world0) /\
  exists evs, log scenario_world = log world0 ++ evs /\ engine_invocations evs = 1.
Proof.
  apply (init_fresh_weights ds_in_2d ds_out_2d "bilinear" false None false
           world0 scenario_world scenario_regridder).
  - vm_compute. reflexivity.
  - left. reflexivity.
Defined.

Lemma init_reuse_loads_existing_file_witness :
  entries (A stale_regridder) = stale_weights /\
  files stale_world_after = files stale_world /\
  exists evs,
    log stale_world_after = log stale_world ++ evs /\ engine_invocations evs = 0.
Proof.
  apply (init_reuse_loads_existing_file ds_in_2d ds_out_2d "bilinear" false None
           stale_world stale_world_after stale_regridder stale_weights).
  - vm_compute. reflexivity.
  - vm_compute. reflexivity.
Defined.

Lemma init_twice_reuses_witness :
  exists w'' evs,
    __init__ ds_in_2d ds_out_2d "bilinear" false None true scenario_world
    = (Ok reuse_regridder, w'') /\
    files w'' = files scenario_world /\
    log w'' = log scenario_world ++ evs /\
    engine_invocations evs = 0.
Proof.
  apply (init_twice_reuses ds_in_2d ds_out_2d "bilinear" false None world0
           scenario_world reuse_regridder).
  vm_compute. reflexivity.
Defined.

Lemma default_filename_injective_witness :
  _get_default_filename scenario_regridder = _get_default_filename stale_regridder
  <-> Ny_in scenario_regridder = Ny_in stale_regridder /\
      Nx_in scenario_regridder = Nx_in stale_regridder /\
      Ny_out scenario_regridder = Ny_out stale_regridder /\
      Nx_out scenario_regridder = Nx_out stale_regridder /\
      periodic scenario_regridder = periodic stale_regridder.
Proof.
  apply (default_filename_injective scenario_regridder stale_regridder).
  reflexivity.
Defined.

Lemma clean_weight_file_twice_witness :
  (forall f, f <> filename scenario_regridder ->
             files cleaned_world !! f = files scenario_world !! f) /\
  clean_weight_file scenario_regridder cleaned_world
  = (Ok tt,
     World (files cleaned_world)
       (log cleaned_world
        ++ [Print ("File " ++ filename scenario_regridder
                   ++ " is already removed.")%string])).
Proof.
  apply (clean_weight_file_twice scenario_regridder scenario_world cleaned_world).
  vm_compute. reflexivity.
Defined.

Lemma write_after_clean_rebuilds_witness :
  _write_weight_file reuse_regridder cleaned_world
  = (Ok tt,
     World (<[filename reuse_regridder := built_weights reuse_regridder]>
              (files cleaned_world))
       (log cleaned_world ++
        [Print ("Create weight file: " ++ filename reuse_regridder)%string;
         EsmfRegridBuild (_grid_in reuse_regridder) (_grid_out reuse_regridder)
           (method reuse_regridder) (filename reuse_regridder);
         EsmfRegridFinalize])).
Proof.
  apply (write_after_clean_rebuilds reuse_regridder scenario_world cleaned_world).
  vm_compute. reflexivity.
Defined.

Lemma regrid_dataarray_shape_error_first_witness :
  regrid_dataarray scenario_regridder dr_mismatch scenario_world
  = (Raise AssertionError, scenario_world) /\
  __call__ scenario_regridder (PyDataArray dr_mismatch) scenario_world
  = (Raise AssertionError, scenario_world).
Proof.
  apply (regrid_dataarray_shape_error_first scenario_regridder dr_mismatch
           scenario_world).
  simpl. discriminate.
Defined.

Lemma init_reuse_across_grids_witness :
  filename other_regridder = filename scenario_regridder /\
  A other_regridder = A scenario_regridder /\
  files other_world = files scenario_world /\
  exists evs, log other_world = log scenario_world ++ evs /\
              engine_invocations evs = 0.
Proof.
  apply (init_reuse_across_grids ds_in_2d ds_out_2d ds_in_other ds_out_2d
           "bilinear" false false world0 scenario_world other_world
           scenario_regridder other_regridder); vm_compute; reflexivity.
Defined.

Lemma regrid_dataarray_output_metadata_witness :
  exists dr_out w',
    regrid_dataarray scenario_regridder dr_aux scenario_world = (Ok dr_out, w') /\
    dims dr_out = dims dr_aux /\
    name dr_out = name dr_aux /\
    attrs dr_out = {["regrid_method" := method scenario_regridder]} /\
    forall k v,
      coords dr_out !! k = Some v ->
      (k = "lon" /\
       v = MkCoordVar (slice_last2 (dims dr_aux))
             (CoordArray (_lon_out scenario_regridder))) \/
      (k = "lat" /\
       v = MkCoordVar (slice_last2 (dims dr_aux))
             (CoordArray (_lat_out scenario_regridder))) \/
      exists dim c,
        dim ∈ slice_but_last2 (dims dr_aux) /\
        coords_getitem dr_aux dim = Ok c /\
        (k = dim /\ v = co_var c \/ k <> dim /\ co_coords c !! k = Some v).
Proof.
  destruct (regrid_dataarray scenario_regridder dr_aux scenario_world)
    as [[dr_out | e] w'] eqn:Hrun.
  - exists dr_out, w'. split; [reflexivity |].
    exact (regrid_dataarray_output_metadata scenario_regridder dr_aux dr_out
             scenario_world w' Hrun).
  - vm_compute in Hrun. discriminate Hrun.
Defined.

End ScenarioExtras.
